(** * Ethereum Frame Actions: delegation, signing and verification

    A shallow embedding of [packages/frames.js/src/ethereum/index.ts].

    The module talks to one external collaborator, the [viem] client
    library: key generation, the clock, typed-data signing and typed-data
    verification.  Every such call is an [Event]; the functions of the
    module are programs over these events ([Prog]), run against an
    arbitrary stateful handler that answers each call or rejects it.  An
    [async] function is a program; [await] of a collaborator's promise is
    the event, and a rejected promise ends the program, since the module
    has no [try].  A run records its outcome, the collaborator's final
    state and the calls that were made, in order.  *)

From Stdlib Require Import ZArith String List Bool DecimalString.
From ExtLib Require Import Structures.Monad.
Import ListNotations.
Import MonadNotation.
Local Open Scope string_scope.
Local Open Scope list_scope.
Local Open Scope monad_scope.

Set Implicit Arguments.
#[local] Set Warnings "-register-all".

(** ** JavaScript values *)

(** A JavaScript [number].  The module never does arithmetic on numbers: it
    stores them, passes them on, and converts one with [BigInt].  [Integer z]
    is the double whose value is the integer [z]; [NotAnInteger] stands for
    every other double (a fraction, [NaN], an infinity), on which [BigInt]
    raises a [RangeError]. *)
Inductive number : Type :=
| Integer (z : Z)
| NotAnInteger.

(** [`0x${string}`] *)
Definition Hex : Type := string.

(** Values as they arrive from the wire or are built by object literals.
    An object is the list of its own properties in insertion order; an
    array is an object whose keys are its indices and ["length"]. *)
Inductive value : Type :=
| VUndefined
| VNull
| VBool (b : bool)
| VNumber (n : number)
| VBigInt (z : Z)
| VString (s : string)
| VObject (props : list (string * value)).

Definition object : Type := list (string * value).

(** [typeof v] *)
Definition typeof (v : value) : string :=
  match v with
  | VUndefined => "undefined"
  | VNull => "object"
  | VBool _ => "boolean"
  | VNumber _ => "number"
  | VBigInt _ => "bigint"
  | VString _ => "string"
  | VObject _ => "object"
  end.

(** Own-property lookup: [o[k]], [undefined] when [k] is not a key. *)
Fixpoint get (k : string) (o : object) : value :=
  match o with
  | [] => VUndefined
  | (k', v) :: o' => if String.eqb k k' then v else get k o'
  end.

(** [k in o] for an object. *)
Fixpoint has (k : string) (o : object) : bool :=
  match o with
  | [] => false
  | (k', _) :: o' => String.eqb k k' || has k o'
  end.

(** [{...o, k: v}]: an existing key keeps its place and takes the new
    value, a new key goes last. *)
Fixpoint set (k : string) (v : value) (o : object) : object :=
  match o with
  | [] => [(k, v)]
  | (k', v') :: o' =>
      if String.eqb k k' then (k', v) :: o' else (k', v') :: set k v o'
  end.

(** [{...o, k1: v1, ..., kn: vn}] *)
Definition spread (o : object) (kvs : list (string * value)) : object :=
  fold_left (fun acc kv => set (fst kv) (snd kv) acc) kvs o.

Definition keys (o : object) : list string := map fst o.

(** [k in v]: the module applies it only after [typeof v === "object"]
    and [v !== null]. *)
Definition in_operator (k : string) (v : value) : bool :=
  match v with
  | VObject o => has k o
  | _ => false
  end.

(** [v.k] as read by destructuring a non-null object. *)
Definition property (k : string) (v : value) : value :=
  match v with
  | VObject o => get k o
  | _ => VUndefined
  end.

(** [v === s] for a string literal [s]. *)
Definition strict_equal_string (v : value) (s : string) : bool :=
  match v with
  | VString t => String.eqb t s
  | _ => false
  end.

(** [v === null] *)
Definition is_null (v : value) : bool :=
  match v with
  | VNull => true
  | _ => false
  end.

(** ** The type guard *)

Definition isEthereumFrameActionPayload (body : value) : bool :=
  if negb (String.eqb (typeof body) "object") || is_null body then false
  else if negb (in_operator "clientProtocol" body)
          || negb (in_operator "untrustedData" body)
          || negb (in_operator "trustedData" body) then false
  else
    let clientProtocol := property "clientProtocol" body in
    let untrustedData := property "untrustedData" body in
    let trustedData := property "trustedData" body in
    if negb (strict_equal_string clientProtocol "eth@v1") then false
    else
      String.eqb (typeof clientProtocol) "string"
      && String.eqb (typeof untrustedData) "object"
      && negb (is_null untrustedData)
      && String.eqb (typeof trustedData) "object"
      && negb (is_null trustedData).

(** A non-null object: [typeof v === "object" && v !== null]. *)
Definition is_object (v : value) : bool :=
  match v with
  | VObject _ => true
  | _ => false
  end.

(** ** The types of the module *)

Record PublicKeyBundle : Type := {
  timestamp : number;
  proxy_key_bytes : Hex
}.

Record SignedPublicKeyBundle : Type := {
  public_key_bundle : PublicKeyBundle;
  wallet_address : Hex;
  signature : Hex
}.

Record FrameActionBody : Type := {
  url : string;
  unixTimestamp : number;
  buttonIndex : number;
  inputText : option string;
  state : option string;
  transactionId : option Hex;
  address : option Hex
}.

(** [FrameActionBody & { signature; signedPublicKeyBundle }]: the action
    fields are kept together in [action]; [UntrustedData_props] below gives
    the flat object. *)
Record UntrustedData : Type := {
  action : FrameActionBody;
  action_signature : Hex;
  signedPublicKeyBundle : SignedPublicKeyBundle
}.

Record TrustedData : Type := {
  messageBytes : Hex
}.

Record EthereumFrameRequest : Type := {
  clientProtocol : string;
  untrustedData : UntrustedData;
  trustedData : TrustedData
}.

(** *** The objects behind the typed values

    The own properties of a value of each type; an optional field that is
    omitted is not a key. *)

Definition optional (k : string) (v : option string) : object :=
  match v with
  | Some s => [(k, VString s)]
  | None => []
  end.

Definition PublicKeyBundle_props (b : PublicKeyBundle) : object :=
  [("timestamp", VNumber (timestamp b));
   ("proxy_key_bytes", VString (proxy_key_bytes b))].

Definition SignedPublicKeyBundle_props (sb : SignedPublicKeyBundle) : object :=
  [("public_key_bundle", VObject (PublicKeyBundle_props (public_key_bundle sb)));
   ("wallet_address", VString (wallet_address sb));
   ("signature", VString (signature sb))].

Definition FrameActionBody_props (b : FrameActionBody) : object :=
  [("url", VString (url b));
   ("unixTimestamp", VNumber (unixTimestamp b));
   ("buttonIndex", VNumber (buttonIndex b))]
  ++ optional "inputText" (inputText b)
  ++ optional "state" (state b)
  ++ optional "transactionId" (transactionId b)
  ++ optional "address" (address b).

(** [{ ...body, signature, signedPublicKeyBundle }] *)
Definition UntrustedData_props (u : UntrustedData) : object :=
  spread (FrameActionBody_props (action u))
    [("signature", VString (action_signature u));
     ("signedPublicKeyBundle",
      VObject (SignedPublicKeyBundle_props (signedPublicKeyBundle u)))].

Definition EthereumFrameRequest_value (r : EthereumFrameRequest) : value :=
  VObject
    [("clientProtocol", VString (clientProtocol r));
     ("untrustedData", VObject (UntrustedData_props (untrustedData r)));
     ("trustedData", VObject [("messageBytes", VString (messageBytes (trustedData r)))])].

(** ** Typed data *)

Record TypedDataParameter : Type := {
  name : string;
  type : string
}.

Definition EIP712TypesV1 : list (string * list TypedDataParameter) :=
  [("FrameActionBody",
    [ {| name := "frame_url"; type := "string" |};
      {| name := "button_index"; type := "uint32" |};
      {| name := "unix_timestamp"; type := "uint64" |};
      {| name := "input_text"; type := "string" |};
      {| name := "state"; type := "string" |};
      {| name := "transaction_id"; type := "bytes32" |};
      {| name := "address"; type := "address" |} ]);
   ("PublicKeyBundle",
    [ {| name := "timestamp"; type := "uint64" |};
      {| name := "proxy_key_bytes"; type := "address" |} ])].

Definition domain : object :=
  [("name", VString "Ethereum Frame Action");
   ("version", VString "1")].

(** [viem]'s constants. *)
Definition zeroAddress : Hex :=
  "0x0000000000000000000000000000000000000000".

Definition zeroHash : Hex :=
  "0x0000000000000000000000000000000000000000000000000000000000000000".

(** What [signTypedData] is given. *)
Record TypedDataDefinition : Type := {
  primaryType : string;
  td_domain : object;
  types : list (string * list TypedDataParameter);
  message : object
}.

(** What [verifyTypedData] is given: a definition, the claimed signer and
    the signature. *)
Record VerifyTypedDataParameters : Type := {
  vp_typedData : TypedDataDefinition;
  vp_address : Hex;
  vp_signature : Hex
}.

(** ** The collaborator *)

Module Account.
Record t : Type := { address : Hex }.
End Account.

Record WalletClient : Type := {
  account : option Account.t
}.

(** A verification client is known to the module only as a handle. *)
Inductive PublicClient : Type :=
| client (id : nat).

(** The calls the module makes outside itself. *)
Inductive Event : Type -> Type :=
| generatePrivateKey : Event Hex
| privateKeyToAccount (privateKey : Hex) : Event Account.t
| Date_now : Event number
| createPublicClient : Event PublicClient
| verifyTypedData (c : PublicClient) (p : VerifyTypedDataParameters) : Event bool
| signTypedData (w : WalletClient) (d : TypedDataDefinition) : Event Hex.

(** Why a run ended without a value. *)
Inductive error : Type :=
| Error (msg : string)               (* [throw new Error(msg)], by this module *)
| RangeError                         (* [BigInt] of a number that is no integer *)
| CollaboratorError (reason : string). (* a call outside the module failed *)

Inductive result (A : Type) : Type :=
| Ok (a : A)
| Err (e : error).
Arguments Err {A} e.

(** ** Programs *)

Inductive Prog (A : Type) : Type :=
| Ret (a : A)
| Throw (e : error)
| Await (X : Type) (ev : Event X) (k : X -> Prog A).
Arguments Throw {A} e.

Fixpoint Prog_bind {A B : Type} (p : Prog A) (f : A -> Prog B) : Prog B :=
  match p with
  | Ret a => f a
  | Throw e => Throw e
  | Await ev k => Await ev (fun x => Prog_bind (k x) f)
  end.

#[export] Instance Monad_Prog : Monad Prog :=
  {| ret := @Ret; bind := @Prog_bind |}.

(** [await] of one call. *)
Definition await {X : Type} (ev : Event X) : Prog X := Await ev (@Ret X).

(** The collaborator: it answers a call with a value or rejects it with a
    reason, and moves to a new state. *)
Definition Handler (S : Type) : Type :=
  forall X : Type, Event X -> S -> (X + string) * S.

(** The answer of the collaborator [h] to the call [ev] in state [s]. *)
Definition ask {S X : Type} (h : Handler S) (ev : Event X) (s : S)
    : (X + string) * S :=
  h X ev s.
Arguments ask : simpl never.

(** A call that was made, whatever its answer. *)
Inductive Call : Type :=
| Called (X : Type) (ev : Event X).

Record Run (S A : Type) : Type := {
  outcome : result A;
  final : S;
  calls : list Call
}.

Definition logged {S A X : Type} (ev : Event X) (r : Run S A) : Run S A :=
  {| outcome := outcome r; final := final r; calls := Called ev :: calls r |}.

Fixpoint run {S A : Type} (h : Handler S) (p : Prog A) (s : S) : Run S A :=
  match p with
  | Ret a => {| outcome := Ok a; final := s; calls := [] |}
  | Throw e => {| outcome := Err e; final := s; calls := [] |}
  | Await ev k =>
      match ask h ev s with
      | (inl x, s') => logged ev (run h (k x) s')
      | (inr reason, s') =>
          {| outcome := Err (CollaboratorError reason); final := s';
             calls := [Called ev] |}
      end
  end.

(** ** The module's functions *)

(** [BigInt(n)] *)
Definition BigInt (n : number) : Prog Z :=
  match n with
  | Integer z => ret z
  | NotAnInteger => Throw RangeError
  end.

(** [v ?? d] *)
Definition nullish (v : option string) (d : string) : string :=
  match v with
  | Some s => s
  | None => d
  end.

Definition NoAccountError : error :=
  Error "Wallet client does not have an account".

(** The [typedData] of [verifyPublicKeyBundle]. *)
Definition verifyPublicKeyBundle_typedData
    (signedPublicKeyBundle : SignedPublicKeyBundle) : VerifyTypedDataParameters :=
  {| vp_typedData :=
       {| primaryType := "PublicKeyBundle";
          td_domain := domain;
          types := EIP712TypesV1;
          message :=
            [("timestamp",
              VNumber (timestamp (public_key_bundle signedPublicKeyBundle)));
             ("wallet_address",
              VString (wallet_address signedPublicKeyBundle));
             ("proxy_key_bytes",
              VString (proxy_key_bytes (public_key_bundle signedPublicKeyBundle)))] |};
     vp_address := wallet_address signedPublicKeyBundle;
     vp_signature := signature signedPublicKeyBundle |}.

Definition verifyPublicKeyBundle
    (signedPublicKeyBundle : SignedPublicKeyBundle) : Prog bool :=
  let typedData := verifyPublicKeyBundle_typedData signedPublicKeyBundle in
  publicClient <- await createPublicClient ;;
  await (verifyTypedData publicClient typedData).

(** The [typedData] of [getEthereumFrameMessage]. *)
Definition getEthereumFrameMessage_typedData
    (untrustedData : UntrustedData) : VerifyTypedDataParameters :=
  let b := action untrustedData in
  {| vp_typedData :=
       {| primaryType := "FrameActionBody";
          td_domain := domain;
          types := EIP712TypesV1;
          message :=
            [("frame_url", VString (url b));
             ("button_index", VNumber (buttonIndex b));
             ("unix_timestamp", VNumber (unixTimestamp b));
             ("input_text", VString (nullish (inputText b) ""));
             ("state", VString (nullish (state b) ""));
             ("transaction_id", VString (nullish (transactionId b) zeroHash));
             ("address", VString (nullish (address b) zeroAddress))] |};
     vp_address :=
       proxy_key_bytes (public_key_bundle (signedPublicKeyBundle untrustedData));
     vp_signature := action_signature untrustedData |}.

(** [h === sentinel ? undefined : h], for an optional [h]. *)
Definition unless_sentinel (h : option Hex) (sentinel : Hex) : value :=
  match h with
  | Some x => if String.eqb x sentinel then VUndefined else VString x
  | None => VUndefined
  end.

(** The object [getEthereumFrameMessage] returns:
    [{ ...untrustedData, transactionId, address, isValid, requesterWalletAddress }]. *)
Definition getEthereumFrameMessage_result
    (untrustedData : UntrustedData) (isValid : bool) : object :=
  spread (UntrustedData_props untrustedData)
    [("transactionId",
      unless_sentinel (transactionId (action untrustedData)) zeroHash);
     ("address",
      unless_sentinel (address (action untrustedData)) zeroAddress);
     ("isValid", VBool isValid);
     ("requesterWalletAddress",
      VString (wallet_address (signedPublicKeyBundle untrustedData)))].

Definition getEthereumFrameMessage
    (body : EthereumFrameRequest) (publicClient : option PublicClient)
    : Prog object :=
  let untrustedData := untrustedData body in
  let typedData := getEthereumFrameMessage_typedData untrustedData in
  _publicClient <-
    match publicClient with
    | Some c => ret c
    | None => await createPublicClient
    end ;;
  isFrameDataValid <- await (verifyTypedData _publicClient typedData) ;;
  isSignerValid <- verifyPublicKeyBundle (signedPublicKeyBundle untrustedData) ;;
  let isValid := isFrameDataValid && isSignerValid in
  ret (getEthereumFrameMessage_result untrustedData isValid).

(** The typed data [signPublicKeyBundle] has signed. *)
Definition signPublicKeyBundle_typedData
    (publicKeyBundle : PublicKeyBundle) : TypedDataDefinition :=
  {| primaryType := "PublicKeyBundle";
     td_domain := domain;
     types := EIP712TypesV1;
     message :=
       [("timestamp", VNumber (timestamp publicKeyBundle));
        ("proxy_key_bytes", VString (proxy_key_bytes publicKeyBundle))] |}.

Definition signPublicKeyBundle
    (publicKeyBundle : PublicKeyBundle) (walletClient : WalletClient)
    : Prog SignedPublicKeyBundle :=
  match account walletClient with
  | None => Throw NoAccountError
  | Some walletAccount =>
      signature <-
        await (signTypedData walletClient
                 (signPublicKeyBundle_typedData publicKeyBundle)) ;;
      ret {| public_key_bundle := publicKeyBundle;
             wallet_address := Account.address walletAccount;
             signature := signature |}
  end.

(** Returns [{ signedPublicKeyBundle, privateKey }], here a pair. *)
Definition createSignedPublicKeyBundle (walletClient : WalletClient)
    : Prog (SignedPublicKeyBundle * Hex) :=
  match account walletClient with
  | None => Throw NoAccountError
  | Some _ =>
      privateKey <- await generatePrivateKey ;;
      signerAccount <- await (privateKeyToAccount privateKey) ;;
      now <- await Date_now ;;
      let publicKeyBundle :=
        {| timestamp := now;
           proxy_key_bytes := Account.address signerAccount |} in
      signedPublicKeyBundle <- signPublicKeyBundle publicKeyBundle walletClient ;;
      ret (signedPublicKeyBundle, privateKey)
  end.

(** The typed data [signFrameActionBody] has signed, given the [bigint]
    that [BigInt(body.unixTimestamp)] returned. *)
Definition signFrameActionBody_typedData
    (body : FrameActionBody) (unix_timestamp : Z) : TypedDataDefinition :=
  {| primaryType := "FrameActionBody";
     td_domain := domain;
     types := EIP712TypesV1;
     message :=
       [("frame_url", VString (url body));
        ("button_index", VNumber (buttonIndex body));
        ("unix_timestamp", VBigInt unix_timestamp);
        ("input_text", VString (nullish (inputText body) ""));
        ("state", VString (nullish (state body) ""));
        ("transaction_id", VString (nullish (transactionId body) zeroHash));
        ("address", VString (nullish (address body) zeroAddress))] |}.

Definition signFrameActionBody
    (body : FrameActionBody) (proxyWalletClient : WalletClient) : Prog Hex :=
  match account proxyWalletClient with
  | None => Throw NoAccountError
  | Some _ =>
      unix_timestamp <- BigInt (unixTimestamp body) ;;
      await (signTypedData proxyWalletClient
               (signFrameActionBody_typedData body unix_timestamp))
  end.

Definition createEthereumFrameRequest
    (body : FrameActionBody) (proxyWalletClient : WalletClient)
    (signedPublicKeyBundle : SignedPublicKeyBundle)
    : Prog EthereumFrameRequest :=
  signature <- signFrameActionBody body proxyWalletClient ;;
  ret {| clientProtocol := "eth@v1";
         untrustedData :=
           {| action := body;
              action_signature := signature;
              signedPublicKeyBundle := signedPublicKeyBundle |};
         trustedData := {| messageBytes := "0x" |} |}.

(** ** What a typed-data signature covers

    EIP-712 hashes a definition member by member: for each member that the
    schema lists for the primary type, in schema order, the value the
    message holds under that name, an unsigned integer by its value whether
    it is given as a [number] or as a [bigint].  A key of the message that
    the schema does not name is not read.  This is the collaborator's
    reading of a definition, stated here to say what is assumed of it. *)

Definition is_uint (t : string) : bool := String.prefix "uint" t.

Definition encodeField (t : string) (v : value) : value :=
  if is_uint t then
    match v with
    | VNumber (Integer z) => VBigInt z
    | _ => v
    end
  else v.

Fixpoint struct_members (primary : string)
    (ts : list (string * list TypedDataParameter)) : list TypedDataParameter :=
  match ts with
  | [] => []
  | (n, ms) :: ts' => if String.eqb primary n then ms else struct_members primary ts'
  end.

Definition encodeData (d : TypedDataDefinition) : list (string * value) :=
  map (fun p => (name p, encodeField (type p) (get (name p) (message d))))
      (struct_members (primaryType d) (types d)).

Record TypedContent : Type := {
  c_domain : object;
  c_primaryType : string;
  c_types : list (string * list TypedDataParameter);
  c_data : list (string * value)
}.

Definition content (d : TypedDataDefinition) : TypedContent :=
  {| c_domain := td_domain d;
     c_primaryType := primaryType d;
     c_types := types d;
     c_data := encodeData d |}.

(** A collaborator that answers every call and verifies exactly the
    signatures it produced: [valid a c sig] says that [sig] is the signature
    of the account with address [a] over the content [c], and [account_of]
    is the account of a private key. *)
Record faithful (S : Type) (h : Handler S)
    (account_of : Hex -> Account.t)
    (valid : Hex -> TypedContent -> Hex -> bool) : Prop := {
  answers_generatePrivateKey :
    forall s, exists k s', ask h generatePrivateKey s = (inl k, s');
  answers_privateKeyToAccount :
    forall k s, exists s',
      ask h (privateKeyToAccount k) s = (inl (account_of k), s');
  answers_Date_now :
    forall s, exists n s', ask h Date_now s = (inl n, s');
  answers_createPublicClient :
    forall s, exists c s', ask h createPublicClient s = (inl c, s');
  signs :
    forall w a d s, account w = Some a ->
      exists sig s',
        ask h (signTypedData w d) s = (inl sig, s')
        /\ valid (Account.address a) (content d) sig = true;
  verifies :
    forall c p s, exists s',
      ask h (verifyTypedData c p) s
      = (inl (valid (vp_address p) (content (vp_typedData p)) (vp_signature p)), s')
}.

(** ** A small collaborator to run the module against

    Its state is a counter: the clock reads [1700000000123 + state]
    milliseconds, keys and clients are numbered by it.  A signature is the
    signer's address followed by a rendering of the signed content.  A
    verification on a client whose number is in [offline] is rejected. *)

Fixpoint show (v : value) : string :=
  match v with
  | VUndefined => "undefined"
  | VNull => "null"
  | VBool true => "true"
  | VBool false => "false"
  | VNumber (Integer z) => "num" ++ NilZero.string_of_int (Z.to_int z)
  | VNumber NotAnInteger => "num?"
  | VBigInt z => NilZero.string_of_int (Z.to_int z) ++ "n"
  | VString s => "'" ++ s ++ "'"
  | VObject o =>
      "{" ++ (fix props (o : list (string * value)) : string :=
                match o with
                | [] => ""
                | (k, x) :: o' => k ++ ":" ++ show x ++ "," ++ props o'
                end) o ++ "}"
  end%string.

Definition toy_sign (a : Hex) (c : TypedContent) : Hex :=
  (a ++ "|" ++ c_primaryType c ++ "|" ++ show (VObject (c_domain c))
     ++ "|" ++ show (VObject (c_data c)))%string.

Definition toy_valid (a : Hex) (c : TypedContent) (sig : Hex) : bool :=
  String.eqb sig (toy_sign a c).

(** The account the collaborator [toy] gives a private key. *)
Definition toy_account (k : Hex) : Account.t :=
  {| Account.address := ("0xaddr-of-" ++ k)%string |}.

Definition reachable (offline : list nat) (c : PublicClient) : bool :=
  match c with
  | client id => negb (existsb (Nat.eqb id) offline)
  end.

Definition toy (offline : list nat) : Handler nat :=
  fun X ev =>
    match ev in Event X return nat -> (X + string) * nat with
    | generatePrivateKey =>
        fun s => (inl ("0xkey" ++ NilZero.string_of_uint (Nat.to_uint s))%string, S s)
    | privateKeyToAccount k =>
        fun s => (inl (toy_account k), s)
    | Date_now =>
        fun s => (inl (Integer (1700000000123 + Z.of_nat s)), S s)
    | createPublicClient =>
        fun s => (inl (client s), S s)
    | verifyTypedData c p =>
        fun s =>
          if reachable offline c then
            (inl (toy_valid (vp_address p) (content (vp_typedData p)) (vp_signature p)), s)
          else (inr "HttpRequestError", s)
    | signTypedData w d =>
        fun s =>
          match account w with
          | Some a => (inl (toy_sign (Account.address a) (content d)), s)
          | None => (inr "AccountNotFoundError", s)
          end
    end.

(** *** Sample data: wallet W, the action body of the specification's
    scenario, and the round trip as a client would run it. *)

Definition wallet_W : WalletClient :=
  {| account := Some {| Account.address := "0xW" |} |}.

Definition unbound_wallet : WalletClient := {| account := None |}.

Definition scenario_body : FrameActionBody :=
  {| url := "https://x";
     unixTimestamp := Integer 1000;
     buttonIndex := Integer 2;
     inputText := None;
     state := None;
     transactionId := None;
     address := None |}.



(** The request that the round trip of [wallet_W] and [scenario_body]
    builds on the collaborator [toy] started at 0. *)
Definition scenario_attestation : SignedPublicKeyBundle :=
  {| public_key_bundle :=
       {| timestamp := Integer 1700000000124;
          proxy_key_bytes := "0xaddr-of-0xkey0" |};
     wallet_address := "0xW";
     signature :=
       toy_sign "0xW"
         (content (signPublicKeyBundle_typedData
                     {| timestamp := Integer 1700000000124;
                        proxy_key_bytes := "0xaddr-of-0xkey0" |})) |}.

Definition scenario_request : EthereumFrameRequest :=
  {| clientProtocol := "eth@v1";
     untrustedData :=
       {| action := scenario_body;
          action_signature :=
            toy_sign "0xaddr-of-0xkey0"
              (content (signFrameActionBody_typedData scenario_body 1000));
          signedPublicKeyBundle := scenario_attestation |};
     trustedData := {| messageBytes := "0x" |} |}.

(** The fields the declared return type of [getEthereumFrameMessage] has:
    those of [FrameActionBody], [isValid] and [requesterWalletAddress]. *)
Definition VerifiedFrameAction_fields : list string :=
  ["url"; "unixTimestamp"; "buttonIndex"; "inputText"; "state";
   "transactionId"; "address"; "isValid"; "requesterWalletAddress"].

(** A string-valued optional field as a property value. *)
Definition optional_value (v : option string) : value :=
  match v with
  | Some s => VString s
  | None => VUndefined
  end.

(** [scenario_request] with the button index changed after signing. *)
Definition tampered_request : EthereumFrameRequest :=
  {| clientProtocol := "eth@v1";
     untrustedData :=
       {| action :=
            {| url := "https://x";
               unixTimestamp := Integer 1000;
               buttonIndex := Integer 3;
               inputText := None;
               state := None;
               transactionId := None;
               address := None |};
          action_signature := action_signature (untrustedData scenario_request);
          signedPublicKeyBundle := scenario_attestation |};
     trustedData := {| messageBytes := "0x" |} |}.

(** The unix time in seconds at a clock reading of [ms] milliseconds since
    the epoch, the unit in which [Date.now()] reads the clock. *)
Definition unix_seconds (ms : Z) : Z := (ms / 1000)%Z.

(** [scenario_body] with a timestamp that is not a whole number of
    milliseconds. *)
Definition fractional_body : FrameActionBody :=
  {| url := "https://x";
     unixTimestamp := NotAnInteger;
     buttonIndex := Integer 2;
     inputText := None;
     state := None;
     transactionId := None;
     address := None |}.

(** The wallet client of the proxy key of [scenario_attestation]. *)
Definition proxy_P : WalletClient :=
  {| account := Some {| Account.address := "0xaddr-of-0xkey0" |} |}.

(** ** Runs *)

(** [tr] happened, then [r]. *)
Definition after {S A : Type} (tr : list Call) (r : Run S A) : Run S A :=
  {| outcome := outcome r; final := final r; calls := tr ++ calls r |}.

(** The client the action check runs on: the supplied one, or else a
    default one that the collaborator makes. *)
Definition resolves {S : Type} (h : Handler S)
    (publicClient : option PublicClient)
    (s0 : S) (c : PublicClient) (s1 : S) : Prop :=
  match publicClient with
  | Some c' => c = c' /\ s1 = s0
  | None => ask h createPublicClient s0 = (inl c, s1)
  end.

Definition default_client_calls (publicClient : option PublicClient)
    : list Call :=
  match publicClient with
  | Some _ => []
  | None => [Called createPublicClient]
  end.

(** The collaborator [toy] with a wallet whose user declines every
    signing request. *)
Definition toy_declining : Handler nat :=
  fun X ev =>
    match ev in Event X return nat -> (X + string) * nat with
    | signTypedData w d => fun s => (inr "UserRejectedRequestError", s)
    | ev' => toy [] ev'
    end.

(** ** Kinds of calls *)

(** A call on the verification side: making a client or verifying. *)
Definition is_verification_call (c : Call) : bool :=
  match c with
  | Called ev =>
      match ev with
      | createPublicClient => true
      | verifyTypedData _ _ => true
      | _ => false
      end
  end.

(** ** Variants of an action body *)

(** [body] with [transactionId] and [address] left out where they hold the
    zero sentinel. *)
Definition omit_sentinels (body : FrameActionBody) : FrameActionBody :=
  {| url := url body;
     unixTimestamp := unixTimestamp body;
     buttonIndex := buttonIndex body;
     inputText := inputText body;
     state := state body;
     transactionId :=
       match transactionId body with
       | Some x => if String.eqb x zeroHash then None else Some x
       | None => None
       end;
     address :=
       match address body with
       | Some x => if String.eqb x zeroAddress then None else Some x
       | None => None
       end |}.

(** [body] with the given [inputText] and [state]. *)
Definition with_texts (body : FrameActionBody) (i st : option string)
    : FrameActionBody :=
  {| url := url body;
     unixTimestamp := unixTimestamp body;
     buttonIndex := buttonIndex body;
     inputText := i;
     state := st;
     transactionId := transactionId body;
     address := address body |}.

(** The request that carries [body], [sig] and [sb]. *)
Definition request_of (tag : string) (body : FrameActionBody) (sig : Hex)
    (sb : SignedPublicKeyBundle) (t : TrustedData) : EthereumFrameRequest :=
  {| clientProtocol := tag;
     untrustedData :=
       {| action := body; action_signature := sig;
          signedPublicKeyBundle := sb |};
     trustedData := t |}.

(** * Properties *)

(** ** Objects *)

Lemma has_set_same (k : string) (v : value) (o : object) :
  has k (set k v o) = true.
Proof.
  induction o as [|[k' v'] o IH]; simpl.
  - now rewrite String.eqb_refl.
  - destruct (String.eqb k k') eqn:E; simpl; rewrite E; simpl; auto.
Qed.

Lemma has_set_other (k k' : string) (v : value) (o : object) :
  String.eqb k k' = false -> has k (set k' v o) = has k o.
Proof.
  intros E. induction o as [|[k0 v0] o IH]; simpl.
  - now rewrite E.
  - destruct (String.eqb k' k0) eqn:E0; simpl; [reflexivity | now rewrite IH].
Qed.

Lemma get_set_same (k : string) (v : value) (o : object) :
  get k (set k v o) = v.
Proof.
  induction o as [|[k' v'] o IH]; simpl.
  - now rewrite String.eqb_refl.
  - destruct (String.eqb k k') eqn:E; simpl; rewrite E; auto.
Qed.

Lemma get_set_other (k k' : string) (v : value) (o : object) :
  String.eqb k k' = false -> get k (set k' v o) = get k o.
Proof.
  intros E. induction o as [|[k0 v0] o IH]; simpl.
  - now rewrite E.
  - destruct (String.eqb k' k0) eqn:E0; simpl.
    + apply String.eqb_eq in E0. subst k0. now rewrite E.
    + now rewrite IH.
Qed.

(** ** The type guard *)

Lemma typeof_object (v : value) :
  String.eqb (typeof v) "object" && negb (is_null v) = is_object v.
Proof. destruct v; reflexivity. Qed.

Lemma strict_equal_string_spec (v : value) (s : string) :
  strict_equal_string v s = true <-> v = VString s.
Proof.
  destruct v; simpl; split; try discriminate.
  - intros E. apply String.eqb_eq in E. now subst.
  - intros E. injection E as ->. apply String.eqb_refl.
Qed.

(** C7.  [isEthereumFrameActionPayload] accepts exactly the non-null objects
    that have the keys [clientProtocol], [untrustedData] and [trustedData],
    whose [clientProtocol] is the string ["eth@v1"] and whose [untrustedData]
    and [trustedData] are non-null objects.  It rejects [null], a plain
    string, an object without [trustedData], and an object tagged
    ["eth@v2"]. *)
Theorem isEthereumFrameActionPayload_spec :
  (forall body : value,
     isEthereumFrameActionPayload body = true
     <-> exists o : object,
           body = VObject o
           /\ has "clientProtocol" o = true
           /\ has "untrustedData" o = true
           /\ has "trustedData" o = true
           /\ get "clientProtocol" o = VString "eth@v1"
           /\ is_object (get "untrustedData" o) = true
           /\ is_object (get "trustedData" o) = true)
  /\ isEthereumFrameActionPayload VNull = false
  /\ (forall s : string, isEthereumFrameActionPayload (VString s) = false)
  /\ (forall o : object,
        has "trustedData" o = false ->
        isEthereumFrameActionPayload (VObject o) = false)
  /\ (forall o : object,
        get "clientProtocol" o = VString "eth@v2" ->
        isEthereumFrameActionPayload (VObject o) = false).
Proof.
  split; [| repeat split; try reflexivity].
  2: { intros o H. unfold isEthereumFrameActionPayload. simpl. rewrite H.
       now rewrite !orb_true_r. }
  2: { intros o H. unfold isEthereumFrameActionPayload. simpl. rewrite H.
       simpl. now destruct (_ || _). }
  intros body. split.
  - destruct body as [| | | | | |o]; try discriminate.
    unfold isEthereumFrameActionPayload. simpl.
    destruct (has "clientProtocol" o) eqn:Hc; [| discriminate].
    destruct (has "untrustedData" o) eqn:Hu; [| discriminate].
    destruct (has "trustedData" o) eqn:Ht; [| discriminate].
    simpl.
    destruct (strict_equal_string (get "clientProtocol" o) "eth@v1") eqn:Hp;
      [| discriminate].
    simpl. intros H.
    apply strict_equal_string_spec in Hp.
    exists o. repeat split; auto.
    + rewrite Hp in H. simpl in H.
      rewrite <- typeof_object.
      destruct (get "untrustedData" o); simpl in *; auto; discriminate.
    + rewrite Hp in H. simpl in H.
      destruct (get "untrustedData" o); simpl in H; try discriminate;
        destruct (get "trustedData" o); simpl in *; auto; discriminate.
  - intros (o & -> & Hc & Hu & Ht & Hp & Iu & It).
    unfold isEthereumFrameActionPayload. simpl.
    rewrite Hc, Hu, Ht, Hp. simpl.
    destruct (get "untrustedData" o); try discriminate.
    destruct (get "trustedData" o); try discriminate.
    reflexivity.
Qed.

(** ** Running a program *)


Section Running.

Variable S : Type.
Variable h : Handler S.

Lemma run_bind (A B : Type) (p : Prog A) (f : A -> Prog B) (s : S) :
  run h (Prog_bind p f) s =
  match outcome (run h p s) with
  | Ok a => after (calls (run h p s)) (run h (f a) (final (run h p s)))
  | Err e =>
      {| outcome := Err e; final := final (run h p s);
         calls := calls (run h p s) |}
  end.
Proof.
  revert s. induction p as [a | e | X ev k IH]; intros s; simpl.
  - now destruct (run h (f a) s).
  - reflexivity.
  - destruct (ask h ev s) as [[x | reason] s']; simpl; [| reflexivity].
    rewrite IH. now destruct (outcome (run h (k x) s')).
Qed.

Lemma run_await (X : Type) (ev : Event X) (s : S) :
  run h (await ev) s =
  {| outcome :=
       match fst (ask h ev s) with
       | inl x => Ok x
       | inr reason => Err (CollaboratorError reason)
       end;
     final := snd (ask h ev s);
     calls := [Called ev] |}.
Proof.
  unfold await. simpl. now destruct (ask h ev s) as [[x | reason] s'].
Qed.


Lemma verifyPublicKeyBundle_run (sb : SignedPublicKeyBundle)
    (s s1 s2 : S) (c : PublicClient) (a : bool + string) :
  ask h createPublicClient s = (inl c, s1) ->
  ask h (verifyTypedData c (verifyPublicKeyBundle_typedData sb)) s1 = (a, s2) ->
  run h (verifyPublicKeyBundle sb) s =
  {| outcome :=
       match a with
       | inl b => Ok b
       | inr reason => Err (CollaboratorError reason)
       end;
     final := s2;
     calls := [Called createPublicClient;
               Called (verifyTypedData c (verifyPublicKeyBundle_typedData sb))] |}.
Proof.
  intros H1 H2. unfold verifyPublicKeyBundle. simpl.
  rewrite H1. simpl. rewrite H2. now destruct a.
Qed.

Lemma verifyPublicKeyBundle_returns (sb : SignedPublicKeyBundle)
    (s : S) (b : bool) :
  outcome (run h (verifyPublicKeyBundle sb) s) = Ok b ->
  exists c s1 s2,
    ask h createPublicClient s = (inl c, s1)
    /\ ask h (verifyTypedData c (verifyPublicKeyBundle_typedData sb)) s1
       = (inl b, s2).
Proof.
  unfold verifyPublicKeyBundle. simpl.
  destruct (ask h createPublicClient s) as [[c | r] s1] eqn:H1; simpl;
    [| discriminate].
  destruct (ask h (verifyTypedData c _) s1) as [[b' | r] s2] eqn:H2; simpl;
    [| discriminate].
  intros E. injection E as ->. now exists c, s1, s2.
Qed.

Lemma getEthereumFrameMessage_run (body : EthereumFrameRequest)
    (publicClient : option PublicClient)
    (s0 s1 s2 s3 s4 : S) (c1 c2 : PublicClient) (b1 b2 : bool) :
  let u := untrustedData body in
  resolves h publicClient s0 c1 s1 ->
  ask h (verifyTypedData c1 (getEthereumFrameMessage_typedData u)) s1
  = (inl b1, s2) ->
  ask h createPublicClient s2 = (inl c2, s3) ->
  ask h (verifyTypedData c2 (verifyPublicKeyBundle_typedData (signedPublicKeyBundle u))) s3
  = (inl b2, s4) ->
  run h (getEthereumFrameMessage body publicClient) s0 =
  {| outcome := Ok (getEthereumFrameMessage_result u (b1 && b2));
     final := s4;
     calls :=
       default_client_calls publicClient
       ++ [Called (verifyTypedData c1 (getEthereumFrameMessage_typedData u));
           Called createPublicClient;
           Called (verifyTypedData c2
                     (verifyPublicKeyBundle_typedData (signedPublicKeyBundle u)))] |}.
Proof.
  intros u R H1 H2 H3. unfold getEthereumFrameMessage, verifyPublicKeyBundle.
  fold u. destruct publicClient as [c |]; simpl in *.
  - destruct R as [-> ->]. rewrite H1. simpl. rewrite H2. simpl.
    rewrite H3. reflexivity.
  - rewrite R. simpl. rewrite H1. simpl. rewrite H2. simpl.
    rewrite H3. reflexivity.
Qed.

End Running.

(** ** The returned object *)

Lemma getEthereumFrameMessage_result_isValid (u : UntrustedData) (v : bool) :
  get "isValid" (getEthereumFrameMessage_result u v) = VBool v.
Proof.
  unfold getEthereumFrameMessage_result, spread. cbn [fold_left fst snd].
  rewrite get_set_other by reflexivity. apply get_set_same.
Qed.

Lemma getEthereumFrameMessage_result_requester (u : UntrustedData) (v : bool) :
  get "requesterWalletAddress" (getEthereumFrameMessage_result u v)
  = VString (wallet_address (signedPublicKeyBundle u)).
Proof.
  unfold getEthereumFrameMessage_result, spread. cbn [fold_left fst snd].
  apply get_set_same.
Qed.

Ltac split_keys k :=
  repeat match goal with
         | |- context [String.eqb k ?s] => destruct (String.eqb k s)
         end.

Lemma getEthereumFrameMessage_result_keys (u : UntrustedData) (v : bool)
    (k : string) :
  has k (getEthereumFrameMessage_result u v)
  = has k (FrameActionBody_props (action u))
    || existsb (String.eqb k)
         ["signature"; "signedPublicKeyBundle"; "transactionId"; "address";
          "isValid"; "requesterWalletAddress"].
Proof.
  destruct u as [[u0 t0 b0 [i|] [st|] [tx|] [ad|]] sg sb];
    cbn; split_keys k; reflexivity.
Qed.

Section Verification.

Variable S : Type.
Variable h : Handler S.


(** C5, as the code has it.  The object [getEthereumFrameMessage] returns
    is a copy of [untrustedData] with four keys set.  Its keys are those
    of the action body, [signature] and [signedPublicKeyBundle] (copied
    with the rest of [untrustedData]), [transactionId], [address],
    [isValid] and [requesterWalletAddress].  The action fields keep their
    values; [transactionId] is [undefined] when it was omitted or is the
    all-zero hash and [address] is [undefined] when it was omitted or is
    the all-zero address, neither is ever the zero sentinel;
    [requesterWalletAddress] is the attestation's wallet address. *)
Theorem getEthereumFrameMessage_fields (body : EthereumFrameRequest)
    (publicClient : option PublicClient)
    (s0 s1 s2 : S) (c1 : PublicClient) (b1 b2 : bool) :
  let u := untrustedData body in
  let b := action u in
  resolves h publicClient s0 c1 s1 ->
  ask h (verifyTypedData c1 (getEthereumFrameMessage_typedData u)) s1
  = (inl b1, s2) ->
  outcome (run h (verifyPublicKeyBundle (signedPublicKeyBundle u)) s2) = Ok b2 ->
  exists r : object,
    outcome (run h (getEthereumFrameMessage body publicClient) s0) = Ok r
    /\ (forall k : string,
          has k r
          = has k (FrameActionBody_props b)
            || existsb (String.eqb k)
                 ["signature"; "signedPublicKeyBundle"; "transactionId";
                  "address"; "isValid"; "requesterWalletAddress"])
    /\ get "url" r = VString (url b)
    /\ get "unixTimestamp" r = VNumber (unixTimestamp b)
    /\ get "buttonIndex" r = VNumber (buttonIndex b)
    /\ get "inputText" r = optional_value (inputText b)
    /\ get "state" r = optional_value (state b)
    /\ get "transactionId" r
       = match transactionId b with
         | Some x => if String.eqb x zeroHash then VUndefined else VString x
         | None => VUndefined
         end
    /\ get "transactionId" r <> VString zeroHash
    /\ get "address" r
       = match address b with
         | Some x => if String.eqb x zeroAddress then VUndefined else VString x
         | None => VUndefined
         end
    /\ get "address" r <> VString zeroAddress
    /\ get "isValid" r = VBool (b1 && b2)
    /\ get "requesterWalletAddress" r
       = VString (wallet_address (signedPublicKeyBundle u))
    /\ get "signature" r = VString (action_signature u)
    /\ get "signedPublicKeyBundle" r
       = VObject (SignedPublicKeyBundle_props (signedPublicKeyBundle u)).
Proof.
  intros u b R H1 H2.
  pose proof H2 as H2'.
  apply verifyPublicKeyBundle_returns in H2' as (c2 & s3 & s4 & H3 & H4).
  exists (getEthereumFrameMessage_result u (b1 && b2)).
  rewrite getEthereumFrameMessage_run with (1 := R) (2 := H1) (3 := H3) (4 := H4).
  split; [reflexivity |].
  split; [intros k; apply getEthereumFrameMessage_result_keys |].
  subst b. fold u. clear.
  destruct u as [[u0 t0 i0 [i|] [st|] [tx|] [ad|]] sg sb]; cbn;
    repeat match goal with
           | |- context [String.eqb ?x zeroHash] =>
               destruct (String.eqb x zeroHash) eqn:?
           | |- context [String.eqb ?x zeroAddress] =>
               destruct (String.eqb x zeroAddress) eqn:?
           end;
    repeat split; try reflexivity; try discriminate;
    intros E; injection E as ->; discriminate.
Qed.

(** C6, what the code does.  With a verification client [c] supplied,
    [getEthereumFrameMessage] runs the action check on [c], and then
    [verifyPublicKeyBundle] has a default client made and runs the
    delegation check on that one, whatever [c] is. *)
Theorem getEthereumFrameMessage_supplied_client (body : EthereumFrameRequest)
    (c c2 : PublicClient) (s0 s2 s3 s4 : S) (b1 b2 : bool) :
  let u := untrustedData body in
  ask h (verifyTypedData c (getEthereumFrameMessage_typedData u)) s0
  = (inl b1, s2) ->
  ask h createPublicClient s2 = (inl c2, s3) ->
  ask h (verifyTypedData c2 (verifyPublicKeyBundle_typedData (signedPublicKeyBundle u))) s3
  = (inl b2, s4) ->
  calls (run h (getEthereumFrameMessage body (Some c)) s0)
  = [Called (verifyTypedData c (getEthereumFrameMessage_typedData u));
     Called createPublicClient;
     Called (verifyTypedData c2
               (verifyPublicKeyBundle_typedData (signedPublicKeyBundle u)))].
Proof.
  intros u H1 H2 H3.
  assert (R : resolves h (Some c) s0 c s0) by (split; reflexivity).
  now rewrite getEthereumFrameMessage_run with (1 := R) (2 := H1) (3 := H2) (4 := H3).
Qed.

(** C8.  A verification call that the collaborator rejects ends the
    operation with that very rejection: in [verifyPublicKeyBundle], in the
    action check of [getEthereumFrameMessage], and in its delegation
    check.  No object with [isValid = false] is returned then. *)
Theorem collaborator_error_propagates :
  (forall (sb : SignedPublicKeyBundle) (s s1 s2 : S) (c : PublicClient)
          (reason : string),
      ask h createPublicClient s = (inl c, s1) ->
      ask h (verifyTypedData c (verifyPublicKeyBundle_typedData sb)) s1
      = (inr reason, s2) ->
      outcome (run h (verifyPublicKeyBundle sb) s)
      = Err (CollaboratorError reason))
  /\ (forall (body : EthereumFrameRequest) (publicClient : option PublicClient)
             (s0 s1 s2 : S) (c1 : PublicClient) (reason : string),
        resolves h publicClient s0 c1 s1 ->
        ask h (verifyTypedData c1
                 (getEthereumFrameMessage_typedData (untrustedData body))) s1
        = (inr reason, s2) ->
        outcome (run h (getEthereumFrameMessage body publicClient) s0)
        = Err (CollaboratorError reason))
  /\ (forall (body : EthereumFrameRequest) (publicClient : option PublicClient)
             (s0 s1 s2 : S) (c1 : PublicClient) (b1 : bool) (e : error),
        resolves h publicClient s0 c1 s1 ->
        ask h (verifyTypedData c1
                 (getEthereumFrameMessage_typedData (untrustedData body))) s1
        = (inl b1, s2) ->
        outcome (run h (verifyPublicKeyBundle
                          (signedPublicKeyBundle (untrustedData body))) s2)
        = Err e ->
        outcome (run h (getEthereumFrameMessage body publicClient) s0) = Err e).
Proof.
  split; [| split].
  - intros sb s s1 s2 c reason H1 H2.
    now rewrite verifyPublicKeyBundle_run with (1 := H1) (2 := H2).
  - intros body publicClient s0 s1 s2 c1 reason R H1.
    unfold getEthereumFrameMessage.
    destruct publicClient as [c |]; simpl in *.
    + destruct R as [-> ->]. now rewrite H1.
    + rewrite R. simpl. now rewrite H1.
  - intros body publicClient s0 s1 s2 c1 b1 e R H1 H2.
    unfold getEthereumFrameMessage.
    destruct publicClient as [c |]; cbn -[verifyPublicKeyBundle] in *.
    + destruct R as [-> ->]. rewrite H1.
      cbn -[verifyPublicKeyBundle]. rewrite run_bind, H2. reflexivity.
    + rewrite R. cbn -[verifyPublicKeyBundle]. rewrite H1.
      cbn -[verifyPublicKeyBundle]. rewrite run_bind, H2. reflexivity.
Qed.

End Verification.

(** *** The verification theorems on the sample request *)



Lemma getEthereumFrameMessage_fields_witness :
  exists r : object,
    outcome (run (toy []) (getEthereumFrameMessage scenario_request None) 4) = Ok r
    /\ (forall k : string,
          has k r
          = has k (FrameActionBody_props scenario_body)
            || existsb (String.eqb k)
                 ["signature"; "signedPublicKeyBundle"; "transactionId";
                  "address"; "isValid"; "requesterWalletAddress"])
    /\ get "url" r = VString "https://x"
    /\ get "unixTimestamp" r = VNumber (Integer 1000)
    /\ get "buttonIndex" r = VNumber (Integer 2)
    /\ get "inputText" r = VUndefined
    /\ get "state" r = VUndefined
    /\ get "transactionId" r = VUndefined
    /\ get "transactionId" r <> VString zeroHash
    /\ get "address" r = VUndefined
    /\ get "address" r <> VString zeroAddress
    /\ get "isValid" r = VBool (true && true)
    /\ get "requesterWalletAddress" r = VString "0xW"
    /\ get "signature" r
       = VString (action_signature (untrustedData scenario_request))
    /\ get "signedPublicKeyBundle" r
       = VObject (SignedPublicKeyBundle_props scenario_attestation).
Proof.
  apply (@getEthereumFrameMessage_fields nat (toy []) scenario_request
           None 4 5 5 (client 4) true true).
  - reflexivity.
  - vm_compute. reflexivity.
  - vm_compute. reflexivity.
Defined.

(** C5, as stated, fails: the object returned for the sample request has
    the keys [signature] and [signedPublicKeyBundle], which are neither
    fields of the action body nor [isValid] or [requesterWalletAddress]. *)
Lemma getEthereumFrameMessage_extra_fields :
  exists r : object,
    outcome (run (toy []) (getEthereumFrameMessage scenario_request None) 4) = Ok r
    /\ ~ (forall k : string, has k r = true -> In k VerifiedFrameAction_fields).
Proof.
  eexists. split; [vm_compute; reflexivity |].
  intros H. specialize (H "signature" eq_refl).
  simpl in H. repeat destruct H as [H | H]; try discriminate H. exact H.
Qed.

(** A supplied client 7 that answers, the default client 0 out of reach. *)
Lemma getEthereumFrameMessage_supplied_client_witness :
  calls (run (toy []) (getEthereumFrameMessage scenario_request (Some (client 7))) 0)
  = [Called (verifyTypedData (client 7)
               (getEthereumFrameMessage_typedData (untrustedData scenario_request)));
     Called createPublicClient;
     Called (verifyTypedData (client 0)
               (verifyPublicKeyBundle_typedData scenario_attestation))].
Proof.
  apply (@getEthereumFrameMessage_supplied_client nat (toy []) scenario_request
           (client 7) (client 0) 0 0 1 1 true true).
  - vm_compute. reflexivity.
  - reflexivity.
  - vm_compute. reflexivity.
Defined.

(** With the default client out of reach the supplied client does not
    help: the request is not verified at all. *)
Lemma getEthereumFrameMessage_supplied_client_unused :
  outcome (run (toy [0]) (getEthereumFrameMessage scenario_request (Some (client 7))) 0)
  = Err (CollaboratorError "HttpRequestError").
Proof. vm_compute. reflexivity. Qed.

Lemma collaborator_error_propagates_witness :
  outcome (run (toy [0]) (verifyPublicKeyBundle scenario_attestation) 0)
  = Err (CollaboratorError "HttpRequestError")
  /\ outcome (run (toy [7]) (getEthereumFrameMessage scenario_request (Some (client 7))) 0)
     = Err (CollaboratorError "HttpRequestError")
  /\ outcome (run (toy [0]) (getEthereumFrameMessage scenario_request (Some (client 7))) 0)
     = Err (CollaboratorError "HttpRequestError").
Proof.
  split; [| split].
  - apply (proj1 (collaborator_error_propagates (toy [0])))
      with (s1 := 1) (s2 := 1) (c := client 0); reflexivity.
  - apply (proj1 (proj2 (collaborator_error_propagates (toy [7]))))
      with (s1 := 0) (s2 := 0) (c1 := client 7);
      [split; reflexivity | reflexivity].
  - apply (proj2 (proj2 (collaborator_error_propagates (toy [0]))))
      with (s1 := 0) (s2 := 0) (c1 := client 7) (b1 := true);
      [split; reflexivity | vm_compute; reflexivity | vm_compute; reflexivity].
Defined.

(** ** Signing *)

Section Signing.

Variable S : Type.
Variable h : Handler S.

Lemma signPublicKeyBundle_run (publicKeyBundle : PublicKeyBundle)
    (w : WalletClient) (a : Account.t) (s s' : S) (answer : Hex + string) :
  account w = Some a ->
  ask h (signTypedData w (signPublicKeyBundle_typedData publicKeyBundle)) s
  = (answer, s') ->
  run h (signPublicKeyBundle publicKeyBundle w) s =
  {| outcome :=
       match answer with
       | inl sig =>
           Ok {| public_key_bundle := publicKeyBundle;
                 wallet_address := Account.address a;
                 signature := sig |}
       | inr reason => Err (CollaboratorError reason)
       end;
     final := s';
     calls := [Called (signTypedData w (signPublicKeyBundle_typedData publicKeyBundle))] |}.
Proof.
  intros Ha H1. unfold signPublicKeyBundle. rewrite Ha. simpl.
  rewrite H1. now destruct answer.
Qed.

Lemma createSignedPublicKeyBundle_run (w : WalletClient) (a pa : Account.t)
    (s0 s1 s2 s3 s4 : S) (k sig : Hex) (now : number) :
  let publicKeyBundle :=
    {| timestamp := now; proxy_key_bytes := Account.address pa |} in
  account w = Some a ->
  ask h generatePrivateKey s0 = (inl k, s1) ->
  ask h (privateKeyToAccount k) s1 = (inl pa, s2) ->
  ask h Date_now s2 = (inl now, s3) ->
  ask h (signTypedData w (signPublicKeyBundle_typedData publicKeyBundle)) s3
  = (inl sig, s4) ->
  run h (createSignedPublicKeyBundle w) s0 =
  {| outcome :=
       Ok ({| public_key_bundle := publicKeyBundle;
              wallet_address := Account.address a;
              signature := sig |}, k);
     final := s4;
     calls :=
       [Called generatePrivateKey;
        Called (privateKeyToAccount k);
        Called Date_now;
        Called (signTypedData w (signPublicKeyBundle_typedData publicKeyBundle))] |}.
Proof.
  intros b Ha H1 H2 H3 H4. unfold createSignedPublicKeyBundle.
  rewrite Ha. cbn -[signPublicKeyBundle]. rewrite H1.
  cbn -[signPublicKeyBundle]. rewrite H2.
  cbn -[signPublicKeyBundle]. rewrite H3.
  cbn -[signPublicKeyBundle]. fold b.
  rewrite run_bind.
  rewrite signPublicKeyBundle_run with (1 := Ha) (2 := H4).
  reflexivity.
Qed.

Lemma signFrameActionBody_run (body : FrameActionBody) (w : WalletClient)
    (a : Account.t) (z : Z) (s s' : S) (answer : Hex + string) :
  account w = Some a ->
  unixTimestamp body = Integer z ->
  ask h (signTypedData w (signFrameActionBody_typedData body z)) s
  = (answer, s') ->
  run h (signFrameActionBody body w) s =
  {| outcome :=
       match answer with
       | inl sig => Ok sig
       | inr reason => Err (CollaboratorError reason)
       end;
     final := s';
     calls := [Called (signTypedData w (signFrameActionBody_typedData body z))] |}.
Proof.
  intros Ha Hz H1. unfold signFrameActionBody. rewrite Ha, Hz. simpl.
  rewrite H1. now destruct answer.
Qed.

Lemma createEthereumFrameRequest_run (body : FrameActionBody)
    (w : WalletClient) (sb : SignedPublicKeyBundle)
    (a : Account.t) (z : Z) (s s' : S) (sig : Hex) :
  account w = Some a ->
  unixTimestamp body = Integer z ->
  ask h (signTypedData w (signFrameActionBody_typedData body z)) s
  = (inl sig, s') ->
  run h (createEthereumFrameRequest body w sb) s =
  {| outcome :=
       Ok {| clientProtocol := "eth@v1";
             untrustedData :=
               {| action := body;
                  action_signature := sig;
                  signedPublicKeyBundle := sb |};
             trustedData := {| messageBytes := "0x" |} |};
     final := s';
     calls := [Called (signTypedData w (signFrameActionBody_typedData body z))] |}.
Proof.
  intros Ha Hz H1. unfold createEthereumFrameRequest.
  cbn -[signFrameActionBody]. rewrite run_bind.
  rewrite signFrameActionBody_run with (1 := Ha) (2 := Hz) (3 := H1).
  reflexivity.
Qed.

(** C9.  [createSignedPublicKeyBundle], [signPublicKeyBundle] and
    [signFrameActionBody] throw the no-account error when the wallet
    client has no account, before any call to the collaborator; when the
    client has an account, none of them ends with that error. *)
Theorem signing_requires_account :
  (forall (w : WalletClient) (publicKeyBundle : PublicKeyBundle)
          (body : FrameActionBody) (s : S),
      account w = None ->
      run h (createSignedPublicKeyBundle w) s
      = {| outcome := Err NoAccountError; final := s; calls := [] |}
      /\ run h (signPublicKeyBundle publicKeyBundle w) s
         = {| outcome := Err NoAccountError; final := s; calls := [] |}
      /\ run h (signFrameActionBody body w) s
         = {| outcome := Err NoAccountError; final := s; calls := [] |})
  /\ (forall (w : WalletClient) (a : Account.t)
             (publicKeyBundle : PublicKeyBundle)
             (body : FrameActionBody) (s : S),
        account w = Some a ->
        outcome (run h (createSignedPublicKeyBundle w) s) <> Err NoAccountError
        /\ outcome (run h (signPublicKeyBundle publicKeyBundle w) s)
           <> Err NoAccountError
        /\ outcome (run h (signFrameActionBody body w) s)
           <> Err NoAccountError).
Proof.
  split.
  - intros w b body s Ha.
    unfold createSignedPublicKeyBundle, signPublicKeyBundle,
      signFrameActionBody.
    rewrite Ha. repeat split.
  - intros w a b body s Ha.
    unfold createSignedPublicKeyBundle, signPublicKeyBundle,
      signFrameActionBody.
    rewrite Ha. simpl. repeat split.
    + destruct (ask h generatePrivateKey s) as [[k | r] s1]; simpl;
        [| discriminate].
      destruct (ask h (privateKeyToAccount k) s1) as [[pa | r] s2]; simpl;
        [| discriminate].
      destruct (ask h Date_now s2) as [[n | r] s3]; simpl; [| discriminate].
      destruct (ask h (signTypedData w _) s3) as [[sig | r] s4]; simpl;
        discriminate.
    + destruct (ask h (signTypedData w _) s) as [[sig | r] s1]; simpl;
        discriminate.
    + destruct (unixTimestamp body) as [z |]; simpl; [| discriminate].
      destruct (ask h (signTypedData w _) s) as [[sig | r] s1]; simpl;
        discriminate.
Qed.

(** C10, as the code has it.  The bundle that
    [createSignedPublicKeyBundle] builds has as its [timestamp] the number
    that [Date.now()] returned when the bundle was built, the current time
    in milliseconds since the Unix epoch. *)
Theorem createSignedPublicKeyBundle_timestamp (w : WalletClient)
    (a pa : Account.t) (s0 s1 s2 s3 s4 : S) (k sig : Hex) (now : number) :
  account w = Some a ->
  ask h generatePrivateKey s0 = (inl k, s1) ->
  ask h (privateKeyToAccount k) s1 = (inl pa, s2) ->
  ask h Date_now s2 = (inl now, s3) ->
  ask h (signTypedData w
           (signPublicKeyBundle_typedData
              {| timestamp := now; proxy_key_bytes := Account.address pa |})) s3
  = (inl sig, s4) ->
  exists sb : SignedPublicKeyBundle,
    outcome (run h (createSignedPublicKeyBundle w) s0) = Ok (sb, k)
    /\ timestamp (public_key_bundle sb) = now
    /\ proxy_key_bytes (public_key_bundle sb) = Account.address pa.
Proof.
  intros Ha H1 H2 H3 H4.
  rewrite createSignedPublicKeyBundle_run
    with (1 := Ha) (2 := H1) (3 := H2) (4 := H3) (5 := H4).
  eexists. split; [reflexivity |]. split; reflexivity.
Qed.

End Signing.

(** *** The signing theorems on the sample data *)

Lemma signing_requires_account_witness :
  (run (toy []) (createSignedPublicKeyBundle unbound_wallet) 0
   = {| outcome := Err NoAccountError; final := 0; calls := [] |}
   /\ run (toy []) (signPublicKeyBundle (public_key_bundle scenario_attestation)
                      unbound_wallet) 0
      = {| outcome := Err NoAccountError; final := 0; calls := [] |}
   /\ run (toy []) (signFrameActionBody scenario_body unbound_wallet) 0
      = {| outcome := Err NoAccountError; final := 0; calls := [] |})
  /\ (outcome (run (toy []) (createSignedPublicKeyBundle wallet_W) 0)
      <> Err NoAccountError
      /\ outcome (run (toy []) (signPublicKeyBundle
                                  (public_key_bundle scenario_attestation)
                                  wallet_W) 0)
         <> Err NoAccountError
      /\ outcome (run (toy []) (signFrameActionBody scenario_body wallet_W) 0)
         <> Err NoAccountError).
Proof.
  split.
  - apply (proj1 (signing_requires_account (toy []))). reflexivity.
  - apply (proj2 (signing_requires_account (toy [])))
      with (a := {| Account.address := "0xW" |}).
    reflexivity.
Defined.

Lemma createSignedPublicKeyBundle_timestamp_witness :
  exists sb : SignedPublicKeyBundle,
    outcome (run (toy []) (createSignedPublicKeyBundle wallet_W) 0)
    = Ok (sb, "0xkey0")
    /\ timestamp (public_key_bundle sb) = Integer 1700000000124
    /\ proxy_key_bytes (public_key_bundle sb)
       = Account.address (toy_account "0xkey0").
Proof.
  apply (@createSignedPublicKeyBundle_timestamp nat (toy []) wallet_W
           {| Account.address := "0xW" |} (toy_account "0xkey0")
           0 1 1 2 2 "0xkey0" (signature scenario_attestation)
           (Integer 1700000000124));
    reflexivity.
Defined.

(** C10, as stated, fails: the collaborator's clock reads 1700000000124
    milliseconds when the bundle is built; the bundle's timestamp is that
    reading, not the 1700000000 seconds it amounts to. *)
Lemma createSignedPublicKeyBundle_timestamp_not_seconds :
  exists (sb : SignedPublicKeyBundle) (k : Hex) (ms : Z),
    outcome (run (toy []) (createSignedPublicKeyBundle wallet_W) 0) = Ok (sb, k)
    /\ fst (ask (toy []) Date_now 1) = inl (Integer ms)
    /\ timestamp (public_key_bundle sb) = Integer ms
    /\ timestamp (public_key_bundle sb) <> Integer (unix_seconds ms).
Proof.
  exists scenario_attestation, "0xkey0", 1700000000124%Z.
  repeat split; try reflexivity. discriminate.
Qed.

(** ** The signed and the verified messages *)

Lemma content_PublicKeyBundle (sb : SignedPublicKeyBundle) :
  content (vp_typedData (verifyPublicKeyBundle_typedData sb))
  = content (signPublicKeyBundle_typedData (public_key_bundle sb)).
Proof. reflexivity. Qed.

Lemma content_FrameActionBody (u : UntrustedData) (z : Z) :
  unixTimestamp (action u) = Integer z ->
  content (vp_typedData (getEthereumFrameMessage_typedData u))
  = content (signFrameActionBody_typedData (action u) z).
Proof.
  intros Hz. unfold content, encodeData. cbn. now rewrite Hz.
Qed.

Section Messages.

Variable S : Type.
Variable h : Handler S.

(** C3, as the code has it.  For an action body whose [unixTimestamp] is
    the integer [z], the message that [signFrameActionBody] has signed and
    the message that [getEthereumFrameMessage] has verified, rebuilt from
    the same field values, have the same primary type, domain and schema,
    the same keys in the same order, and the same value under every key
    but [unix_timestamp]: absent [inputText] and [state] are the empty
    string, an absent [transactionId] is the all-zero hash and an absent
    [address] the all-zero address on both paths.  Under [unix_timestamp]
    the signed message holds the bigint [z] and the verified message the
    number [z]; a typed-data signature covers the same content in both. *)
Theorem FrameActionBody_messages_agree (body : FrameActionBody)
    (w : WalletClient) (a : Account.t) (z : Z)
    (sig : Hex) (sb : SignedPublicKeyBundle) (c : PublicClient) (s s' : S) :
  let request :=
    {| clientProtocol := "eth@v1";
       untrustedData :=
         {| action := body; action_signature := sig;
            signedPublicKeyBundle := sb |};
       trustedData := {| messageBytes := "0x" |} |} in
  account w = Some a ->
  unixTimestamp body = Integer z ->
  exists (d : TypedDataDefinition) (p : VerifyTypedDataParameters),
    calls (run h (signFrameActionBody body w) s) = [Called (signTypedData w d)]
    /\ hd_error (calls (run h (getEthereumFrameMessage request (Some c)) s'))
       = Some (Called (verifyTypedData c p))
    /\ primaryType d = primaryType (vp_typedData p)
    /\ td_domain d = td_domain (vp_typedData p)
    /\ types d = types (vp_typedData p)
    /\ keys (message d) = keys (message (vp_typedData p))
    /\ keys (message d)
       = map name (struct_members "FrameActionBody" EIP712TypesV1)
    /\ (forall k : string,
          k <> "unix_timestamp" ->
          get k (message d) = get k (message (vp_typedData p)))
    /\ get "input_text" (message d) = VString (nullish (inputText body) "")
    /\ get "state" (message d) = VString (nullish (state body) "")
    /\ get "transaction_id" (message d)
       = VString (nullish (transactionId body) zeroHash)
    /\ get "address" (message d)
       = VString (nullish (address body) zeroAddress)
    /\ get "unix_timestamp" (message d) = VBigInt z
    /\ get "unix_timestamp" (message (vp_typedData p)) = VNumber (Integer z)
    /\ content d = content (vp_typedData p).
Proof.
  intros request Ha Hz.
  exists (signFrameActionBody_typedData body z),
         (getEthereumFrameMessage_typedData (untrustedData request)).
  split.
  { destruct (ask h (signTypedData w (signFrameActionBody_typedData body z)) s)
      as [answer s1] eqn:E.
    now rewrite signFrameActionBody_run with (1 := Ha) (2 := Hz) (3 := E). }
  split.
  { unfold getEthereumFrameMessage. simpl.
    now destruct (ask h (verifyTypedData c _) s') as [[b | r] s1]. }
  repeat split; try reflexivity.
  - intros k Hk. cbn.
    destruct (String.eqb k "frame_url"); [reflexivity |].
    destruct (String.eqb k "button_index"); [reflexivity |].
    destruct (String.eqb k "unix_timestamp") eqn:E; [| reflexivity].
    apply String.eqb_eq in E. contradiction.
  - cbn. now rewrite Hz.
  - symmetry. now apply (content_FrameActionBody (untrustedData request)).
Qed.

(** C4, as the code has it.  The definition that [verifyPublicKeyBundle]
    submits has the primary type, domain and schema of the one
    [signPublicKeyBundle] signs and is checked against the attestation's
    [wallet_address] and [signature].  Its message holds the bundle's
    [timestamp] and [proxy_key_bytes] and, between them, the attestation's
    [wallet_address], which the message [signPublicKeyBundle] signs does
    not hold and which the schema does not name: a typed-data signature
    covers the same content in both. *)
Theorem verifyPublicKeyBundle_message (sb : SignedPublicKeyBundle)
    (c : PublicClient) (s s1 : S) :
  let b := public_key_bundle sb in
  ask h createPublicClient s = (inl c, s1) ->
  exists (d : TypedDataDefinition) (p : VerifyTypedDataParameters),
    calls (run h (verifyPublicKeyBundle sb) s)
    = [Called createPublicClient; Called (verifyTypedData c p)]
    /\ (forall (w : WalletClient) (a : Account.t) (s' : S),
          account w = Some a ->
          calls (run h (signPublicKeyBundle b w) s')
          = [Called (signTypedData w d)])
    /\ vp_address p = wallet_address sb
    /\ vp_signature p = signature sb
    /\ primaryType (vp_typedData p) = primaryType d
    /\ td_domain (vp_typedData p) = td_domain d
    /\ types (vp_typedData p) = types d
    /\ message d
       = [("timestamp", VNumber (timestamp b));
          ("proxy_key_bytes", VString (proxy_key_bytes b))]
    /\ message (vp_typedData p)
       = [("timestamp", VNumber (timestamp b));
          ("wallet_address", VString (wallet_address sb));
          ("proxy_key_bytes", VString (proxy_key_bytes b))]
    /\ (forall k : string,
          In k (map name (struct_members "PublicKeyBundle" EIP712TypesV1)) ->
          get k (message (vp_typedData p)) = get k (message d))
    /\ content (vp_typedData p) = content d.
Proof.
  intros b H1.
  exists (signPublicKeyBundle_typedData b), (verifyPublicKeyBundle_typedData sb).
  split.
  { destruct (ask h (verifyTypedData c (verifyPublicKeyBundle_typedData sb)) s1)
      as [answer s2] eqn:E.
    now rewrite verifyPublicKeyBundle_run with (1 := H1) (2 := E). }
  split.
  { intros w a s' Ha.
    destruct (ask h (signTypedData w (signPublicKeyBundle_typedData b)) s')
      as [answer s2] eqn:E.
    now rewrite signPublicKeyBundle_run with (1 := Ha) (2 := E). }
  repeat split; try reflexivity.
  intros k [<- | [<- | []]]; reflexivity.
Qed.


End Messages.

(** *** The sample collaborator and the message theorems on the sample data *)

Lemma toy_faithful : faithful (toy []) toy_account toy_valid.
Proof.
  constructor.
  - intros s. now exists ("0xkey" ++ NilZero.string_of_uint (Nat.to_uint s))%string, (Datatypes.S s).
  - intros k s. now exists s.
  - intros s. now exists (Integer (1700000000123 + Z.of_nat s)), (Datatypes.S s).
  - intros s. now exists (client s), (Datatypes.S s).
  - intros w a d s Ha.
    exists (toy_sign (Account.address a) (content d)), s. split.
    + unfold ask, toy. now rewrite Ha.
    + apply String.eqb_refl.
  - intros [id] p s. now exists s.
Qed.



Lemma FrameActionBody_messages_agree_witness :
  exists (d : TypedDataDefinition) (p : VerifyTypedDataParameters),
    calls (run (toy []) (signFrameActionBody scenario_body proxy_P) 2)
    = [Called (signTypedData proxy_P d)]
    /\ hd_error (calls (run (toy []) (getEthereumFrameMessage scenario_request
                                        (Some (client 7))) 2))
       = Some (Called (verifyTypedData (client 7) p))
    /\ primaryType d = primaryType (vp_typedData p)
    /\ td_domain d = td_domain (vp_typedData p)
    /\ types d = types (vp_typedData p)
    /\ keys (message d) = keys (message (vp_typedData p))
    /\ keys (message d)
       = map name (struct_members "FrameActionBody" EIP712TypesV1)
    /\ (forall k : string,
          k <> "unix_timestamp" ->
          get k (message d) = get k (message (vp_typedData p)))
    /\ get "input_text" (message d) = VString (nullish None "")
    /\ get "state" (message d) = VString (nullish None "")
    /\ get "transaction_id" (message d) = VString (nullish None zeroHash)
    /\ get "address" (message d) = VString (nullish None zeroAddress)
    /\ get "unix_timestamp" (message d) = VBigInt 1000
    /\ get "unix_timestamp" (message (vp_typedData p)) = VNumber (Integer 1000)
    /\ content d = content (vp_typedData p).
Proof.
  apply (@FrameActionBody_messages_agree nat (toy []) scenario_body proxy_P
           {| Account.address := "0xaddr-of-0xkey0" |} 1000
           (action_signature (untrustedData scenario_request))
           scenario_attestation (client 7) 2 2);
    reflexivity.
Defined.

(** C3, as stated, fails: for the sample body the signed message holds the
    bigint 1000 under [unix_timestamp] and the verified message the number
    1000, so the two messages are not equal. *)
Lemma FrameActionBody_messages_differ :
  exists (d : TypedDataDefinition) (p : VerifyTypedDataParameters),
    calls (run (toy []) (signFrameActionBody scenario_body proxy_P) 2)
    = [Called (signTypedData proxy_P d)]
    /\ hd_error (calls (run (toy []) (getEthereumFrameMessage scenario_request
                                        (Some (client 7))) 2))
       = Some (Called (verifyTypedData (client 7) p))
    /\ get "unix_timestamp" (message d) = VBigInt 1000
    /\ get "unix_timestamp" (message (vp_typedData p)) = VNumber (Integer 1000)
    /\ message d <> message (vp_typedData p).
Proof.
  exists (signFrameActionBody_typedData scenario_body 1000),
         (getEthereumFrameMessage_typedData (untrustedData scenario_request)).
  repeat split; try reflexivity. discriminate.
Qed.

Lemma verifyPublicKeyBundle_message_witness :
  exists (d : TypedDataDefinition) (p : VerifyTypedDataParameters),
    calls (run (toy []) (verifyPublicKeyBundle scenario_attestation) 2)
    = [Called createPublicClient; Called (verifyTypedData (client 2) p)]
    /\ (forall (w : WalletClient) (a : Account.t) (s' : nat),
          account w = Some a ->
          calls (run (toy []) (signPublicKeyBundle
                                 (public_key_bundle scenario_attestation) w) s')
          = [Called (signTypedData w d)])
    /\ vp_address p = "0xW"
    /\ vp_signature p = signature scenario_attestation
    /\ primaryType (vp_typedData p) = primaryType d
    /\ td_domain (vp_typedData p) = td_domain d
    /\ types (vp_typedData p) = types d
    /\ message d
       = [("timestamp", VNumber (Integer 1700000000124));
          ("proxy_key_bytes", VString "0xaddr-of-0xkey0")]
    /\ message (vp_typedData p)
       = [("timestamp", VNumber (Integer 1700000000124));
          ("wallet_address", VString "0xW");
          ("proxy_key_bytes", VString "0xaddr-of-0xkey0")]
    /\ (forall k : string,
          In k (map name (struct_members "PublicKeyBundle" EIP712TypesV1)) ->
          get k (message (vp_typedData p)) = get k (message d))
    /\ content (vp_typedData p) = content d.
Proof.
  apply (@verifyPublicKeyBundle_message nat (toy []) scenario_attestation
           (client 2) 2 3).
  reflexivity.
Defined.

(** C4, as stated, fails: for the sample attestation the message submitted
    for verification has the key [wallet_address], the signed message has
    not, so the two messages are not equal. *)
Lemma verifyPublicKeyBundle_message_differs :
  exists (d : TypedDataDefinition) (p : VerifyTypedDataParameters),
    calls (run (toy []) (signPublicKeyBundle
                           (public_key_bundle scenario_attestation) wallet_W) 2)
    = [Called (signTypedData wallet_W d)]
    /\ calls (run (toy []) (verifyPublicKeyBundle scenario_attestation) 2)
       = [Called createPublicClient; Called (verifyTypedData (client 2) p)]
    /\ has "wallet_address" (message (vp_typedData p)) = true
    /\ has "wallet_address" (message d) = false
    /\ message (vp_typedData p) <> message d.
Proof.
  exists (signPublicKeyBundle_typedData (public_key_bundle scenario_attestation)),
         (verifyPublicKeyBundle_typedData scenario_attestation).
  repeat split; try reflexivity. discriminate.
Qed.

(** X1.  Whatever the body, the wallet client and the attestation, a
    request that [createEthereumFrameRequest] returns passes
    [isEthereumFrameActionPayload]. *)
Lemma createEthereumFrameRequest_well_formed (S : Type) (h : Handler S)
    (body : FrameActionBody) (w : WalletClient) (sb : SignedPublicKeyBundle)
    (s : S) (request : EthereumFrameRequest) :
  outcome (run h (createEthereumFrameRequest body w sb) s) = Ok request ->
  isEthereumFrameActionPayload (EthereumFrameRequest_value request) = true.
Proof.
  unfold createEthereumFrameRequest, signFrameActionBody.
  destruct (account w) as [a |]; [| discriminate].
  destruct (unixTimestamp body) as [z |]; [| discriminate].
  simpl.
  destruct (ask h (signTypedData w _) s) as [[sig | r] s1]; [| discriminate].
  simpl. intros E. injection E as <-. reflexivity.
Qed.

Lemma createEthereumFrameRequest_well_formed_witness :
  isEthereumFrameActionPayload (EthereumFrameRequest_value scenario_request)
  = true.
Proof.
  apply (@createEthereumFrameRequest_well_formed nat (toy []) scenario_body
           proxy_P scenario_attestation 2 scenario_request).
  reflexivity.
Defined.

(** * Further properties of the module *)

(** ** Building a request *)

Section Building.

Variable S : Type.
Variable h : Handler S.

(** X2.  [createEthereumFrameRequest] makes one call, the signing of the
    canonical message by the proxy wallet, and wraps the answer: the tag is
    ["eth@v1"], the body and the attestation are embedded as given, whatever
    the attestation is, and [trustedData.messageBytes] is ["0x"]. *)
Theorem createEthereumFrameRequest_embeds (body : FrameActionBody)
    (w : WalletClient) (sb : SignedPublicKeyBundle)
    (a : Account.t) (z : Z) (s s' : S) (sig : Hex) :
  account w = Some a ->
  unixTimestamp body = Integer z ->
  ask h (signTypedData w (signFrameActionBody_typedData body z)) s
  = (inl sig, s') ->
  exists request : EthereumFrameRequest,
    outcome (run h (createEthereumFrameRequest body w sb) s) = Ok request
    /\ calls (run h (createEthereumFrameRequest body w sb) s)
       = [Called (signTypedData w (signFrameActionBody_typedData body z))]
    /\ final (run h (createEthereumFrameRequest body w sb) s) = s'
    /\ clientProtocol request = "eth@v1"
    /\ action (untrustedData request) = body
    /\ action_signature (untrustedData request) = sig
    /\ signedPublicKeyBundle (untrustedData request) = sb
    /\ messageBytes (trustedData request) = "0x".
Proof.
  intros Ha Hz H1.
  rewrite createEthereumFrameRequest_run with (1 := Ha) (2 := Hz) (3 := H1).
  eexists. repeat split.
Qed.

(** X3.  [createEthereumFrameRequest] fails before any call to the
    collaborator when the proxy wallet has no account (with the no-account
    error, also when the timestamp is no integer) and when the wallet has
    an account but [unixTimestamp] is no integer (with the [RangeError] of
    [BigInt]); when the signer rejects, it fails with that rejection after
    the one signing call. *)
Theorem createEthereumFrameRequest_failures :
  (forall (body : FrameActionBody) (w : WalletClient)
          (sb : SignedPublicKeyBundle) (s : S),
      account w = None ->
      run h (createEthereumFrameRequest body w sb) s
      = {| outcome := Err NoAccountError; final := s; calls := [] |})
  /\ (forall (body : FrameActionBody) (w : WalletClient) (a : Account.t)
             (sb : SignedPublicKeyBundle) (s : S),
        account w = Some a ->
        unixTimestamp body = NotAnInteger ->
        run h (createEthereumFrameRequest body w sb) s
        = {| outcome := Err RangeError; final := s; calls := [] |})
  /\ (forall (body : FrameActionBody) (w : WalletClient) (a : Account.t)
             (z : Z) (sb : SignedPublicKeyBundle) (s s' : S) (reason : string),
        account w = Some a ->
        unixTimestamp body = Integer z ->
        ask h (signTypedData w (signFrameActionBody_typedData body z)) s
        = (inr reason, s') ->
        run h (createEthereumFrameRequest body w sb) s
        = {| outcome := Err (CollaboratorError reason); final := s';
             calls := [Called (signTypedData w
                                 (signFrameActionBody_typedData body z))] |}).
Proof.
  split; [| split].
  - intros body w sb s Ha.
    unfold createEthereumFrameRequest, signFrameActionBody. now rewrite Ha.
  - intros body w a sb s Ha Hz.
    unfold createEthereumFrameRequest, signFrameActionBody.
    now rewrite Ha, Hz.
  - intros body w a z sb s s' reason Ha Hz H1.
    unfold createEthereumFrameRequest.
    cbn -[signFrameActionBody]. rewrite run_bind.
    now rewrite signFrameActionBody_run with (1 := Ha) (2 := Hz) (3 := H1).
Qed.

(** X4.  A rejection of the signer ends [signPublicKeyBundle] and
    [createSignedPublicKeyBundle] with that rejection: no attestation and no
    private key is returned. *)
Theorem signer_rejection_propagates :
  (forall (b : PublicKeyBundle) (w : WalletClient) (a : Account.t)
          (s s' : S) (reason : string),
      account w = Some a ->
      ask h (signTypedData w (signPublicKeyBundle_typedData b)) s
      = (inr reason, s') ->
      outcome (run h (signPublicKeyBundle b w) s)
      = Err (CollaboratorError reason))
  /\ (forall (w : WalletClient) (a pa : Account.t) (s0 s1 s2 s3 s4 : S)
             (k : Hex) (now : number) (reason : string),
        account w = Some a ->
        ask h generatePrivateKey s0 = (inl k, s1) ->
        ask h (privateKeyToAccount k) s1 = (inl pa, s2) ->
        ask h Date_now s2 = (inl now, s3) ->
        ask h (signTypedData w
                 (signPublicKeyBundle_typedData
                    {| timestamp := now;
                       proxy_key_bytes := Account.address pa |})) s3
        = (inr reason, s4) ->
        outcome (run h (createSignedPublicKeyBundle w) s0)
        = Err (CollaboratorError reason)).
Proof.
  split.
  - intros b w a s s' reason Ha H1.
    now rewrite signPublicKeyBundle_run with (1 := Ha) (2 := H1).
  - intros w a pa s0 s1 s2 s3 s4 k now reason Ha H1 H2 H3 H4.
    unfold createSignedPublicKeyBundle. rewrite Ha.
    cbn -[signPublicKeyBundle]. rewrite H1.
    cbn -[signPublicKeyBundle]. rewrite H2.
    cbn -[signPublicKeyBundle]. rewrite H3.
    cbn -[signPublicKeyBundle]. rewrite run_bind.
    now rewrite signPublicKeyBundle_run with (1 := Ha) (2 := H4).
Qed.

(** X5.  Whatever the collaborator answers, [verifyPublicKeyBundle] and
    [getEthereumFrameMessage] only make clients and verify: they never
    sign, never generate a key and never read the clock. *)
Theorem verification_only_verifies (body : EthereumFrameRequest)
    (publicClient : option PublicClient) (sb : SignedPublicKeyBundle) (s : S) :
  forallb is_verification_call (calls (run h (verifyPublicKeyBundle sb) s))
  = true
  /\ forallb is_verification_call
       (calls (run h (getEthereumFrameMessage body publicClient) s))
     = true.
Proof.
  split.
  - unfold verifyPublicKeyBundle. simpl.
    destruct (ask h createPublicClient s) as [[c | r] s1]; simpl;
      [| reflexivity].
    now destruct (ask h (verifyTypedData c _) s1) as [[b | r] s2].
  - unfold getEthereumFrameMessage, verifyPublicKeyBundle.
    destruct publicClient as [c |]; simpl.
    + destruct (ask h (verifyTypedData c _) s) as [[b | r] s1]; simpl;
        [| reflexivity].
      destruct (ask h createPublicClient s1) as [[c2 | r] s2]; simpl;
        [| reflexivity].
      now destruct (ask h (verifyTypedData c2 _) s2) as [[b2 | r] s3].
    + destruct (ask h createPublicClient s) as [[c | r] s0]; simpl;
        [| reflexivity].
      destruct (ask h (verifyTypedData c _) s0) as [[b | r] s1]; simpl;
        [| reflexivity].
      destruct (ask h createPublicClient s1) as [[c2 | r] s2]; simpl;
        [| reflexivity].
      now destruct (ask h (verifyTypedData c2 _) s2) as [[b2 | r] s3].
Qed.

(** X6.  Whatever the collaborator answers, the signing operations never
    make a verification client and never verify: the attestation handed to
    [createEthereumFrameRequest] is not checked there, and the result of
    [createSignedPublicKeyBundle] is not checked either.
    [createEthereumFrameRequest] makes at most one call. *)
Theorem signing_never_verifies (body : FrameActionBody) (w : WalletClient)
    (b : PublicKeyBundle) (sb : SignedPublicKeyBundle) (s : S) :
  existsb is_verification_call (calls (run h (signPublicKeyBundle b w) s))
  = false
  /\ existsb is_verification_call
       (calls (run h (createSignedPublicKeyBundle w) s))
     = false
  /\ existsb is_verification_call
       (calls (run h (createEthereumFrameRequest body w sb) s))
     = false
  /\ (length (calls (run h (createEthereumFrameRequest body w sb) s)) <= 1)%nat.
Proof.
  unfold createSignedPublicKeyBundle, createEthereumFrameRequest,
    signPublicKeyBundle, signFrameActionBody.
  destruct (account w) as [a |]; simpl; [| repeat split; auto].
  repeat split.
  - now destruct (ask h (signTypedData w _) s) as [[sig | r] s1].
  - destruct (ask h generatePrivateKey s) as [[k | r] s1]; simpl;
      [| reflexivity].
    destruct (ask h (privateKeyToAccount k) s1) as [[pa | r] s2]; simpl;
      [| reflexivity].
    destruct (ask h Date_now s2) as [[n | r] s3]; simpl; [| reflexivity].
    now destruct (ask h (signTypedData w _) s3) as [[sig | r] s4].
  - destruct (unixTimestamp body) as [z |]; simpl; [| reflexivity].
    now destruct (ask h (signTypedData w _) s) as [[sig | r] s1].
  - destruct (unixTimestamp body) as [z |]; simpl; [| auto].
    destruct (ask h (signTypedData w _) s) as [[sig | r] s1]; simpl; auto.
Qed.

End Building.

Lemma createEthereumFrameRequest_embeds_witness :
  exists request : EthereumFrameRequest,
    outcome (run (toy []) (createEthereumFrameRequest scenario_body proxy_P
                             scenario_attestation) 2) = Ok request
    /\ calls (run (toy []) (createEthereumFrameRequest scenario_body proxy_P
                              scenario_attestation) 2)
       = [Called (signTypedData proxy_P
                    (signFrameActionBody_typedData scenario_body 1000))]
    /\ final (run (toy []) (createEthereumFrameRequest scenario_body proxy_P
                              scenario_attestation) 2) = 2
    /\ clientProtocol request = "eth@v1"
    /\ action (untrustedData request) = scenario_body
    /\ action_signature (untrustedData request)
       = action_signature (untrustedData scenario_request)
    /\ signedPublicKeyBundle (untrustedData request) = scenario_attestation
    /\ messageBytes (trustedData request) = "0x".
Proof.
  apply (@createEthereumFrameRequest_embeds nat (toy []) scenario_body proxy_P
           scenario_attestation {| Account.address := "0xaddr-of-0xkey0" |}
           1000 2 2);
    reflexivity.
Defined.

Lemma createEthereumFrameRequest_failures_witness :
  run (toy []) (createEthereumFrameRequest fractional_body unbound_wallet
                  scenario_attestation) 2
  = {| outcome := Err NoAccountError; final := 2; calls := [] |}
  /\ run (toy []) (createEthereumFrameRequest fractional_body proxy_P
                     scenario_attestation) 2
     = {| outcome := Err RangeError; final := 2; calls := [] |}
  /\ run toy_declining (createEthereumFrameRequest scenario_body proxy_P
                          scenario_attestation) 2
     = {| outcome := Err (CollaboratorError "UserRejectedRequestError");
          final := 2;
          calls := [Called (signTypedData proxy_P
                              (signFrameActionBody_typedData scenario_body 1000))] |}.
Proof.
  split; [| split].
  - apply (proj1 (createEthereumFrameRequest_failures (toy []))). reflexivity.
  - apply (proj1 (proj2 (createEthereumFrameRequest_failures (toy []))))
      with (a := {| Account.address := "0xaddr-of-0xkey0" |}); reflexivity.
  - apply (proj2 (proj2 (createEthereumFrameRequest_failures toy_declining)))
      with (a := {| Account.address := "0xaddr-of-0xkey0" |}); reflexivity.
Defined.

Lemma signer_rejection_propagates_witness :
  outcome (run toy_declining
             (signPublicKeyBundle (public_key_bundle scenario_attestation)
                wallet_W) 0)
  = Err (CollaboratorError "UserRejectedRequestError")
  /\ outcome (run toy_declining (createSignedPublicKeyBundle wallet_W) 0)
     = Err (CollaboratorError "UserRejectedRequestError").
Proof.
  split.
  - apply (proj1 (signer_rejection_propagates toy_declining))
      with (a := {| Account.address := "0xW" |}) (s' := 0); reflexivity.
  - apply (proj2 (signer_rejection_propagates toy_declining))
      with (a := {| Account.address := "0xW" |}) (pa := toy_account "0xkey0")
           (s1 := 1) (s2 := 1) (s3 := 2) (s4 := 2) (k := "0xkey0")
           (now := Integer 1700000000124);
      reflexivity.
Defined.

(** ** Verifying a request *)

Section Checking.

Variable S : Type.
Variable h : Handler S.

(** X7.  Called without a client, [getEthereumFrameMessage] has two default
    clients made: one for the action check, and one more, inside
    [verifyPublicKeyBundle], for the delegation check. *)
Theorem getEthereumFrameMessage_default_clients (body : EthereumFrameRequest)
    (c1 c2 : PublicClient) (s0 s1 s2 s3 s4 : S) (b1 b2 : bool) :
  let u := untrustedData body in
  ask h createPublicClient s0 = (inl c1, s1) ->
  ask h (verifyTypedData c1 (getEthereumFrameMessage_typedData u)) s1
  = (inl b1, s2) ->
  ask h createPublicClient s2 = (inl c2, s3) ->
  ask h (verifyTypedData c2
           (verifyPublicKeyBundle_typedData (signedPublicKeyBundle u))) s3
  = (inl b2, s4) ->
  calls (run h (getEthereumFrameMessage body None) s0)
  = [Called createPublicClient;
     Called (verifyTypedData c1 (getEthereumFrameMessage_typedData u));
     Called createPublicClient;
     Called (verifyTypedData c2
               (verifyPublicKeyBundle_typedData (signedPublicKeyBundle u)))]
  /\ final (run h (getEthereumFrameMessage body None) s0) = s4.
Proof.
  intros u H0 H1 H2 H3.
  assert (R : resolves h None s0 c1 s1) by exact H0.
  now rewrite getEthereumFrameMessage_run
    with (1 := R) (2 := H1) (3 := H2) (4 := H3).
Qed.

(** X8.  When the action check answers false, [getEthereumFrameMessage]
    still runs the delegation check, and the object it returns has
    [isValid = false] and yet names the payload's claimed wallet address as
    [requesterWalletAddress]. *)
Theorem getEthereumFrameMessage_invalid_action (body : EthereumFrameRequest)
    (publicClient : option PublicClient)
    (c1 c2 : PublicClient) (s0 s1 s2 s3 s4 : S) (b2 : bool) :
  let u := untrustedData body in
  let delegation_check :=
    Called (verifyTypedData c2
              (verifyPublicKeyBundle_typedData (signedPublicKeyBundle u))) in
  resolves h publicClient s0 c1 s1 ->
  ask h (verifyTypedData c1 (getEthereumFrameMessage_typedData u)) s1
  = (inl false, s2) ->
  ask h createPublicClient s2 = (inl c2, s3) ->
  ask h (verifyTypedData c2
           (verifyPublicKeyBundle_typedData (signedPublicKeyBundle u))) s3
  = (inl b2, s4) ->
  In delegation_check
     (calls (run h (getEthereumFrameMessage body publicClient) s0))
  /\ exists r : object,
       outcome (run h (getEthereumFrameMessage body publicClient) s0) = Ok r
       /\ get "isValid" r = VBool false
       /\ get "requesterWalletAddress" r
          = VString (wallet_address (signedPublicKeyBundle u)).
Proof.
  intros u d R H1 H2 H3.
  rewrite getEthereumFrameMessage_run
    with (1 := R) (2 := H1) (3 := H2) (4 := H3).
  split.
  - cbn [calls]. apply in_or_app. right. right. right. now left.
  - eexists. split; [reflexivity |]. split.
    + apply getEthereumFrameMessage_result_isValid.
    + apply getEthereumFrameMessage_result_requester.
Qed.

End Checking.

Lemma getEthereumFrameMessage_default_clients_witness :
  calls (run (toy []) (getEthereumFrameMessage scenario_request None) 4)
  = [Called createPublicClient;
     Called (verifyTypedData (client 4)
               (getEthereumFrameMessage_typedData (untrustedData scenario_request)));
     Called createPublicClient;
     Called (verifyTypedData (client 5)
               (verifyPublicKeyBundle_typedData scenario_attestation))]
  /\ final (run (toy []) (getEthereumFrameMessage scenario_request None) 4) = 6.
Proof.
  apply (@getEthereumFrameMessage_default_clients nat (toy []) scenario_request
           (client 4) (client 5) 4 5 5 6 6 true true);
    reflexivity.
Defined.

Lemma getEthereumFrameMessage_invalid_action_witness :
  In (Called (verifyTypedData (client 0)
                (verifyPublicKeyBundle_typedData scenario_attestation)))
     (calls (run (toy []) (getEthereumFrameMessage tampered_request
                             (Some (client 7))) 0))
  /\ exists r : object,
       outcome (run (toy []) (getEthereumFrameMessage tampered_request
                                (Some (client 7))) 0) = Ok r
       /\ get "isValid" r = VBool false
       /\ get "requesterWalletAddress" r = VString "0xW".
Proof.
  apply (@getEthereumFrameMessage_invalid_action nat (toy []) tampered_request
           (Some (client 7)) (client 7) (client 0) 0 0 0 1 1 true).
  - split; reflexivity.
  - vm_compute. reflexivity.
  - reflexivity.
  - vm_compute. reflexivity.
Defined.

(** ** Sentinels *)

(** X9.  Two action bodies are signed over the same typed data exactly when
    they agree on [url], [buttonIndex] and the timestamp and on the optional
    fields after the sentinel substitution: [signFrameActionBody] tells
    apart any two bodies that differ in a signed field, and does not tell an
    omitted optional field from one that holds its sentinel. *)
Theorem signFrameActionBody_typedData_same (b b' : FrameActionBody) (z z' : Z) :
  signFrameActionBody_typedData b z = signFrameActionBody_typedData b' z'
  <-> url b = url b'
      /\ buttonIndex b = buttonIndex b'
      /\ z = z'
      /\ nullish (inputText b) "" = nullish (inputText b') ""
      /\ nullish (state b) "" = nullish (state b') ""
      /\ nullish (transactionId b) zeroHash = nullish (transactionId b') zeroHash
      /\ nullish (address b) zeroAddress = nullish (address b') zeroAddress.
Proof.
  unfold signFrameActionBody_typedData. split.
  - intros H. injection H as H1 H2 H3 H4 H5 H6 H7. now repeat split.
  - intros (H1 & H2 & H3 & H4 & H5 & H6 & H7).
    now rewrite H1, H2, H3, H4, H5, H6, H7.
Qed.

Lemma omit_sentinels_typedData (body : FrameActionBody) (sig : Hex)
    (sb : SignedPublicKeyBundle) :
  getEthereumFrameMessage_typedData
    {| action := omit_sentinels body; action_signature := sig;
       signedPublicKeyBundle := sb |}
  = getEthereumFrameMessage_typedData
      {| action := body; action_signature := sig;
         signedPublicKeyBundle := sb |}.
Proof.
  unfold getEthereumFrameMessage_typedData, omit_sentinels. cbn.
  destruct (transactionId body) as [x |], (address body) as [y |]; cbn;
    try destruct (String.eqb_spec x zeroHash);
    try destruct (String.eqb_spec y zeroAddress);
    subst; reflexivity.
Qed.

Ltac case_key k :=
  repeat match goal with
         | |- context [String.eqb k ?s] =>
             destruct (String.eqb_spec k s); [subst k; cbn; try reflexivity |]
         end.

Lemma omit_sentinels_result (body : FrameActionBody) (sig : Hex)
    (sb : SignedPublicKeyBundle) (v : bool) (k : string) :
  get k (getEthereumFrameMessage_result
           {| action := omit_sentinels body; action_signature := sig;
              signedPublicKeyBundle := sb |} v)
  = get k (getEthereumFrameMessage_result
             {| action := body; action_signature := sig;
                signedPublicKeyBundle := sb |} v).
Proof.
  destruct body as [u0 t0 i0 [i|] [st|] [tx|] [ad|]];
    unfold omit_sentinels, getEthereumFrameMessage_result, unless_sentinel;
    cbn;
    try destruct (String.eqb tx zeroHash) eqn:E1;
    try destruct (String.eqb ad zeroAddress) eqn:E2;
    cbn; rewrite ?E1, ?E2; cbn;
    case_key k; reflexivity.
Qed.

(** X10.  A request whose [transactionId] is the all-zero hash or whose
    [address] is the all-zero address is verified exactly like the request
    that omits them: the same calls are made, with the same typed data, and
    the two results hold the same value under every key, or fail alike. *)
Theorem getEthereumFrameMessage_zero_sentinel (S : Type) (h : Handler S)
    (tag : string) (body : FrameActionBody) (sig : Hex)
    (sb : SignedPublicKeyBundle) (t : TrustedData)
    (publicClient : option PublicClient) (s : S) :
  let omitted :=
    run h (getEthereumFrameMessage
             (request_of tag (omit_sentinels body) sig sb t) publicClient) s in
  let given :=
    run h (getEthereumFrameMessage
             (request_of tag body sig sb t) publicClient) s in
  calls omitted = calls given
  /\ final omitted = final given
  /\ match outcome omitted, outcome given with
     | Ok r, Ok r' => forall k : string, get k r = get k r'
     | Err e, Err e' => e = e'
     | _, _ => False
     end.
Proof.
  unfold getEthereumFrameMessage, verifyPublicKeyBundle, request_of.
  cbn [untrustedData signedPublicKeyBundle].
  rewrite omit_sentinels_typedData.
  destruct publicClient as [c |];
    cbn -[getEthereumFrameMessage_result getEthereumFrameMessage_typedData
          verifyPublicKeyBundle_typedData].
  - destruct (ask h (verifyTypedData c _) s) as [[b | r] s1];
      cbn -[getEthereumFrameMessage_result verifyPublicKeyBundle_typedData];
      [| now repeat split].
    destruct (ask h createPublicClient s1) as [[c2 | r] s2];
      cbn -[getEthereumFrameMessage_result verifyPublicKeyBundle_typedData];
      [| now repeat split].
    destruct (ask h (verifyTypedData c2 _) s2) as [[b2 | r] s3];
      cbn -[getEthereumFrameMessage_result]; [| now repeat split].
    repeat split. intros k. apply omit_sentinels_result.
  - destruct (ask h createPublicClient s) as [[c | r] s0];
      cbn -[getEthereumFrameMessage_result getEthereumFrameMessage_typedData
            verifyPublicKeyBundle_typedData];
      [| now repeat split].
    destruct (ask h (verifyTypedData c _) s0) as [[b | r] s1];
      cbn -[getEthereumFrameMessage_result verifyPublicKeyBundle_typedData];
      [| now repeat split].
    destruct (ask h createPublicClient s1) as [[c2 | r] s2];
      cbn -[getEthereumFrameMessage_result verifyPublicKeyBundle_typedData];
      [| now repeat split].
    destruct (ask h (verifyTypedData c2 _) s2) as [[b2 | r] s3];
      cbn -[getEthereumFrameMessage_result]; [| now repeat split].
    repeat split. intros k. apply omit_sentinels_result.
Qed.

(** X11.  An [inputText] or [state] that is the empty string is signed and
    verified over the same typed data as an omitted one, but unlike the
    zero hash and the zero address it is not turned back into [undefined]:
    the result of [getEthereumFrameMessage] holds the empty string where the
    field was given and [undefined] where it was omitted. *)
Theorem empty_text_is_kept (body : FrameActionBody) (sig : Hex)
    (sb : SignedPublicKeyBundle) (z : Z) (v : bool) :
  let given :=
    {| action := with_texts body (Some "") (Some "");
       action_signature := sig; signedPublicKeyBundle := sb |} in
  let omitted :=
    {| action := with_texts body None None;
       action_signature := sig; signedPublicKeyBundle := sb |} in
  signFrameActionBody_typedData (action given) z
  = signFrameActionBody_typedData (action omitted) z
  /\ getEthereumFrameMessage_typedData given
     = getEthereumFrameMessage_typedData omitted
  /\ get "inputText" (getEthereumFrameMessage_result given v) = VString ""
  /\ get "state" (getEthereumFrameMessage_result given v) = VString ""
  /\ get "inputText" (getEthereumFrameMessage_result omitted v) = VUndefined
  /\ get "state" (getEthereumFrameMessage_result omitted v) = VUndefined.
Proof.
  destruct body as [u0 t0 i0 i st [tx|] [ad|]]; cbn; repeat split.
Qed.

(** ** The type guard and the protocol tag *)

(** X12.  On a request of the declared type the guard
    [isEthereumFrameActionPayload] amounts to the test of the protocol tag
    against ["eth@v1"]; [getEthereumFrameMessage] itself reads neither the
    tag nor [trustedData], so it verifies a request of any tag alike. *)
Theorem protocol_tag_checked_by_guard_only :
  (forall r : EthereumFrameRequest,
      isEthereumFrameActionPayload (EthereumFrameRequest_value r)
      = String.eqb (clientProtocol r) "eth@v1")
  /\ (forall (S : Type) (h : Handler S) (tag tag' : string)
             (body : FrameActionBody) (sig : Hex) (sb : SignedPublicKeyBundle)
             (t t' : TrustedData) (publicClient : option PublicClient) (s : S),
        run h (getEthereumFrameMessage (request_of tag body sig sb t)
                 publicClient) s
        = run h (getEthereumFrameMessage (request_of tag' body sig sb t')
                   publicClient) s).
Proof.
  split.
  - intros [tag u t]. unfold isEthereumFrameActionPayload. cbn.
    now destruct (String.eqb tag "eth@v1").
  - reflexivity.
Qed.

Lemma eqb_other (k k' : string) : k <> k' -> String.eqb k' k = false.
Proof. intros H. apply String.eqb_neq. congruence. Qed.

(** X13.  The guard looks at the three properties [clientProtocol],
    [untrustedData] and [trustedData] only: setting any other property of
    an object, to any value, does not change its answer. *)
Theorem isEthereumFrameActionPayload_other_keys (k : string) (v : value)
    (o : object) :
  k <> "clientProtocol" -> k <> "untrustedData" -> k <> "trustedData" ->
  isEthereumFrameActionPayload (VObject (set k v o))
  = isEthereumFrameActionPayload (VObject o).
Proof.
  intros Hc Hu Ht.
  apply eqb_other in Hc. apply eqb_other in Hu. apply eqb_other in Ht.
  unfold isEthereumFrameActionPayload, in_operator, property.
  now rewrite !has_set_other, !get_set_other by assumption.
Qed.

Lemma isEthereumFrameActionPayload_other_keys_witness :
  isEthereumFrameActionPayload
    (VObject (set "isValid" (VBool true)
                [("clientProtocol", VString "eth@v1");
                 ("untrustedData", VObject []);
                 ("trustedData", VObject [])]))
  = isEthereumFrameActionPayload
      (VObject [("clientProtocol", VString "eth@v1");
                ("untrustedData", VObject []);
                ("trustedData", VObject [])]).
Proof.
  apply (@isEthereumFrameActionPayload_other_keys "isValid" (VBool true));
    discriminate.
Defined.

(** ** Delegation *)

Section Delegating.

Variable S : Type.
Variable h : Handler S.

(** X14.  With a collaborator that answers every call and verifies exactly
    the signatures it produced, an attestation that [signPublicKeyBundle]
    returns for a wallet client with an account, over any bundle, names the
    bundle and the account's address, and [verifyPublicKeyBundle] accepts
    it. *)
Theorem signPublicKeyBundle_verifies (account_of : Hex -> Account.t)
    (valid : Hex -> TypedContent -> Hex -> bool)
    (b : PublicKeyBundle) (w : WalletClient) (a : Account.t) (s s' : S) :
  faithful h account_of valid ->
  account w = Some a ->
  exists sb : SignedPublicKeyBundle,
    outcome (run h (signPublicKeyBundle b w) s) = Ok sb
    /\ public_key_bundle sb = b
    /\ wallet_address sb = Account.address a
    /\ outcome (run h (verifyPublicKeyBundle sb) s') = Ok true.
Proof.
  intros F Ha.
  destruct (signs F w (signPublicKeyBundle_typedData b) s Ha)
    as (sig & s1 & E1 & V1).
  exists {| public_key_bundle := b; wallet_address := Account.address a;
            signature := sig |}.
  rewrite signPublicKeyBundle_run with (1 := Ha) (2 := E1).
  repeat split.
  destruct (answers_createPublicClient F s') as (c & s2 & E2).
  destruct (verifies F c
              (verifyPublicKeyBundle_typedData
                 {| public_key_bundle := b;
                    wallet_address := Account.address a;
                    signature := sig |}) s2) as (s3 & E3).
  rewrite content_PublicKeyBundle in E3.
  cbn [vp_address vp_signature verifyPublicKeyBundle_typedData wallet_address
       signature public_key_bundle] in E3.
  rewrite V1 in E3.
  now rewrite verifyPublicKeyBundle_run with (1 := E2) (2 := E3).
Qed.

(** X15.  With such a collaborator [getEthereumFrameMessage] returns for
    every request with an integral timestamp, and [isValid] says exactly
    that [untrustedData.signature] is the signature of the attestation's
    proxy key over what [signFrameActionBody] signs for the body, and that
    the attestation's signature is the signature of the claimed wallet
    address over what [signPublicKeyBundle] signs for the bundle. *)
Theorem getEthereumFrameMessage_isValid_meaning
    (account_of : Hex -> Account.t)
    (valid : Hex -> TypedContent -> Hex -> bool)
    (body : EthereumFrameRequest) (z : Z)
    (publicClient : option PublicClient) (s : S) :
  let u := untrustedData body in
  let sb := signedPublicKeyBundle u in
  faithful h account_of valid ->
  unixTimestamp (action u) = Integer z ->
  exists r : object,
    outcome (run h (getEthereumFrameMessage body publicClient) s) = Ok r
    /\ get "isValid" r
       = VBool
           (valid (proxy_key_bytes (public_key_bundle sb))
              (content (signFrameActionBody_typedData (action u) z))
              (action_signature u)
            && valid (wallet_address sb)
                 (content (signPublicKeyBundle_typedData (public_key_bundle sb)))
                 (signature sb)).
Proof.
  intros u sb F Hz.
  assert (exists c1 s1, resolves h publicClient s c1 s1) as (c1 & s1 & R).
  { destruct publicClient as [c |].
    - now exists c, s.
    - destruct (answers_createPublicClient F s) as (c1 & s1 & E).
      now exists c1, s1. }
  destruct (verifies F c1 (getEthereumFrameMessage_typedData u) s1)
    as (s2 & E2).
  destruct (answers_createPublicClient F s2) as (c2 & s3 & E3).
  destruct (verifies F c2 (verifyPublicKeyBundle_typedData sb) s3)
    as (s4 & E4).
  rewrite (content_FrameActionBody u Hz) in E2.
  rewrite content_PublicKeyBundle in E4.
  eexists. split.
  - erewrite getEthereumFrameMessage_run;
      [| exact R | exact E2 | exact E3 | exact E4].
    reflexivity.
  - apply getEthereumFrameMessage_result_isValid.
Qed.

(** X16.  [createSignedPublicKeyBundle] makes four calls, in this order:
    key generation, the account of the key, the clock, and the wallet's
    signature over the bundle of clock reading and proxy address.  The
    private key goes into no call but the second; it is returned with an
    attestation that names the wallet account's address and holds the
    signature the wallet gave. *)
Theorem createSignedPublicKeyBundle_calls (w : WalletClient)
    (a pa : Account.t) (s0 s1 s2 s3 s4 : S) (k sig : Hex) (now : number) :
  let b := {| timestamp := now; proxy_key_bytes := Account.address pa |} in
  account w = Some a ->
  ask h generatePrivateKey s0 = (inl k, s1) ->
  ask h (privateKeyToAccount k) s1 = (inl pa, s2) ->
  ask h Date_now s2 = (inl now, s3) ->
  ask h (signTypedData w (signPublicKeyBundle_typedData b)) s3 = (inl sig, s4) ->
  exists sb : SignedPublicKeyBundle,
    outcome (run h (createSignedPublicKeyBundle w) s0) = Ok (sb, k)
    /\ wallet_address sb = Account.address a
    /\ signature sb = sig
    /\ calls (run h (createSignedPublicKeyBundle w) s0)
       = [Called generatePrivateKey;
          Called (privateKeyToAccount k);
          Called Date_now;
          Called (signTypedData w (signPublicKeyBundle_typedData b))]
    /\ final (run h (createSignedPublicKeyBundle w) s0) = s4.
Proof.
  intros b Ha H1 H2 H3 H4.
  rewrite createSignedPublicKeyBundle_run
    with (1 := Ha) (2 := H1) (3 := H2) (4 := H3) (5 := H4).
  eexists. repeat split.
Qed.

End Delegating.

Lemma signPublicKeyBundle_verifies_witness :
  exists sb : SignedPublicKeyBundle,
    outcome (run (toy []) (signPublicKeyBundle
                             {| timestamp := NotAnInteger;
                                proxy_key_bytes := "0xP" |} wallet_W) 0) = Ok sb
    /\ public_key_bundle sb
       = {| timestamp := NotAnInteger; proxy_key_bytes := "0xP" |}
    /\ wallet_address sb = "0xW"
    /\ outcome (run (toy []) (verifyPublicKeyBundle sb) 5) = Ok true.
Proof.
  apply (@signPublicKeyBundle_verifies nat (toy []) toy_account toy_valid
           {| timestamp := NotAnInteger; proxy_key_bytes := "0xP" |}
           wallet_W {| Account.address := "0xW" |} 0 5 toy_faithful).
  reflexivity.
Defined.

Lemma getEthereumFrameMessage_isValid_meaning_witness :
  exists r : object,
    outcome (run (toy []) (getEthereumFrameMessage tampered_request None) 0)
    = Ok r
    /\ get "isValid" r
       = VBool
           (toy_valid "0xaddr-of-0xkey0"
              (content (signFrameActionBody_typedData
                          (action (untrustedData tampered_request)) 1000))
              (action_signature (untrustedData tampered_request))
            && toy_valid "0xW"
                 (content (signPublicKeyBundle_typedData
                             (public_key_bundle scenario_attestation)))
                 (signature scenario_attestation)).
Proof.
  apply (@getEthereumFrameMessage_isValid_meaning nat (toy []) toy_account
           toy_valid tampered_request 1000 None 0 toy_faithful).
  reflexivity.
Defined.

Lemma createSignedPublicKeyBundle_calls_witness :
  exists sb : SignedPublicKeyBundle,
    outcome (run (toy []) (createSignedPublicKeyBundle wallet_W) 0)
    = Ok (sb, "0xkey0")
    /\ wallet_address sb = "0xW"
    /\ signature sb = signature scenario_attestation
    /\ calls (run (toy []) (createSignedPublicKeyBundle wallet_W) 0)
       = [Called generatePrivateKey;
          Called (privateKeyToAccount "0xkey0");
          Called Date_now;
          Called (signTypedData wallet_W
                    (signPublicKeyBundle_typedData
                       (public_key_bundle scenario_attestation)))]
    /\ final (run (toy []) (createSignedPublicKeyBundle wallet_W) 0) = 2.
Proof.
  apply (@createSignedPublicKeyBundle_calls nat (toy []) wallet_W
           {| Account.address := "0xW" |} (toy_account "0xkey0")
           0 1 1 2 2 "0xkey0" (signature scenario_attestation)
           (Integer 1700000000124));
    reflexivity.
Defined.
